(** * Sentiment adjustment and conversation-trend analysis

    A shallow embedding of [src/sentiment.py] (the scorers, the comparative
    adjuster of [SentimentEngine] and the conversation aggregator) and of
    [src/analyzer.py] ([TrendAnalyzer]).

    Numbers.  The scores of [src/sentiment.py] are exact rationals ([Q]):
    what is proved of them turns on fixed values and on comparisons with
    thresholds, and the rounding of the adjuster's additions is not modelled.
    [src/analyzer.py] is modelled on binary64 floats ([PrimFloat]), where
    rounding decides what the code returns: sums are taken left to right from
    0, [x ** 2] is the rounded product [x * x] and [v ** 0.5] the rounded
    square root.

    Text.  A text is a [string] of ASCII characters; the character tables
    below (case, whitespace, word characters) cover the ASCII range and treat
    every other code as a plain symbol. *)

From Stdlib Require Import Bool Arith ZArith QArith Qabs List Sorted Ascii
  String DecimalString Floats Lia Lqa.
From Stdlib Require Uint63.
Import ListNotations.

Set Warnings "-inexact-float".

Set Implicit Arguments.

(* ===================================================================== *)
(** * Python values and helpers *)
(* ===================================================================== *)

Module Py.

Local Open Scope Q_scope.

(** What a call does: it returns a value or raises an exception (only the
    fact that something was raised matters: every handler of the program is
    [except Exception]). *)
Inductive outcome (A : Type) : Type :=
| Returned (a : A)
| Raised (e : string).
Arguments Returned {A} a.
Arguments Raised {A} e.

Definition bind {A B} (o : outcome A) (k : A -> outcome B) : outcome B :=
  match o with
  | Returned a => k a
  | Raised e => Raised e
  end.

(** [try: body  except Exception: handler] *)
Definition try_except {A} (body : outcome A) (handler : A) : A :=
  match body with
  | Returned a => a
  | Raised _ => handler
  end.

(** The values a caller may pass where a message or a text is expected.
    A dictionary is its list of entries, the live entry of a key first. *)
#[warnings="-register-all"]
Inductive pyvalue : Type :=
| PNone
| PBool (b : bool)
| PInt (z : Z)
| PFloat (x : Q)
| PStr (s : string)
| PList (items : list pyvalue)
| PDict (entries : list (string * pyvalue)).

(** [d[key]] when [key in d] *)
Fixpoint dict_get (key : string) (entries : list (string * pyvalue))
  : option pyvalue :=
  match entries with
  | [] => None
  | (k, v) :: rest => if String.eqb key k then Some v else dict_get key rest
  end.

  (** Float comparisons, as booleans. *)
Definition ltb (x y : Q) : bool := negb (Qle_bool y x).
Definition leb (x y : Q) : bool := Qle_bool x y.
Definition gtb (x y : Q) : bool := ltb y x.
Definition geb (x y : Q) : bool := leb y x.

(** [abs(x)] *)
Definition abs (x : Q) : Q := Qabs x.

(** [min(a, b)] and [max(a, b)] return their first argument unless the
    second is strictly smaller (resp. larger). *)
Definition min (a b : Q) : Q := if ltb b a then b else a.
Definition max (a b : Q) : Q := if gtb b a then b else a.

(** [sum(xs)]: left to right from the integer 0. *)
Definition sum (xs : list Q) : Q := fold_left Qplus xs 0.

(** [len(xs)] as a float divisor. *)
Definition len {A} (xs : list A) : Q := inject_Z (Z.of_nat (List.length xs)).

(** [xs.count(x)] on a list of strings. *)
Definition count (x : string) (xs : list string) : nat :=
  List.length (filter (String.eqb x) xs).

(** ** Characters *)

Definition code (c : ascii) : nat := nat_of_ascii c.

Definition is_upper (c : ascii) : bool :=
  (65 <=? code c)%nat && (code c <=? 90)%nat.
Definition is_lower (c : ascii) : bool :=
  (97 <=? code c)%nat && (code c <=? 122)%nat.
Definition is_digit (c : ascii) : bool :=
  (48 <=? code c)%nat && (code c <=? 57)%nat.

(** [\w]: letters, digits and the underscore. *)
Definition is_word (c : ascii) : bool :=
  is_upper c || is_lower c || is_digit c || (code c =? 95)%nat.

(** [str.isspace], which is also [\s]: tab, line feed, vertical tab, form
    feed, carriage return, the four separators 28..31 and the space. *)
Definition is_space (c : ascii) : bool :=
  ((9 <=? code c)%nat && (code c <=? 13)%nat)
  || ((28 <=? code c)%nat && (code c <=? 32)%nat).

Definition lower_char (c : ascii) : ascii :=
  if is_upper c then ascii_of_nat (code c + 32) else c.

(** ** Strings *)

(** [s.lower()] *)
Fixpoint lower (s : string) : string :=
  match s with
  | EmptyString => EmptyString
  | String c s' => String (lower_char c) (lower s')
  end.

Fixpoint lstrip (s : string) : string :=
  match s with
  | EmptyString => EmptyString
  | String c s' => if is_space c then lstrip s' else s
  end.

Fixpoint rev_append (s acc : string) : string :=
  match s with
  | EmptyString => acc
  | String c s' => rev_append s' (String c acc)
  end.

Definition reverse (s : string) : string := rev_append s EmptyString.

(** [s.strip()] *)
Definition strip (s : string) : string :=
  reverse (lstrip (reverse (lstrip s))).

(** Truth value of a string: non-empty. *)
Definition truthy (s : string) : bool :=
  match s with
  | EmptyString => false
  | String _ _ => true
  end.

(** [not text or not text.strip()] *)
Definition is_blank (text : string) : bool :=
  negb (truthy text) || negb (truthy (strip text)).

(** [phrase in text] *)
Fixpoint contains (phrase text : string) : bool :=
  if String.prefix phrase text then true
  else match text with
       | EmptyString => false
       | String _ text' => contains phrase text'
       end.

(** [any(phrase in text for phrase in phrases)] *)
Definition any_in (phrases : list string) (text : string) : bool :=
  existsb (fun phrase => contains phrase text) phrases.

(** ** Formatting *)

(** [f"{n}"] for a non-negative integer. *)
Definition str_nat (n : nat) : string :=
  NilEmpty.string_of_uint (Nat.to_uint n).

Fixpoint zero_pad (width : nat) (s : string) : string :=
  if (String.length s <? width)%nat
  then match width with
       | O => s
       | S w => String "0"%char (zero_pad w s)
       end
  else s.

(** [f"{x:.{d}f}"]: fixed notation with [d] digits, the exact value
    rounded half to even, the sign kept when the value is negative. *)
Definition format_fixed (d : nat) (x : Q) : string :=
  let scale := (10 ^ Z.of_nat d)%Z in
  let num := (Z.abs (Qnum x) * scale)%Z in
  let den := Zpos (Qden x) in
  let q := (num / den)%Z in
  let r := (num mod den)%Z in
  let up :=
    match (2 * r ?= den)%Z with
    | Lt => false
    | Gt => true
    | Eq => Z.odd q
    end in
  let n := Z.to_nat (if up then q + 1 else q)%Z in
  let digits := zero_pad (S d) (str_nat n) in
  let int_part := substring 0 (String.length digits - d) digits in
  let frac_part := substring (String.length digits - d) d digits in
  ((if ltb x 0 then "-" else "")
     ++ int_part ++ (if (d =? 0)%nat then "" else "." ++ frac_part))%string.

End Py.

(* ===================================================================== *)
(** * Regular expressions, as [re.compile(p, re.IGNORECASE).search] uses them *)
(* ===================================================================== *)

Module Re.

(** The constructs the pattern tables of the engine are written with. *)
Inductive regex : Type :=
| Eps                          (* the empty pattern *)
| Chr (c : ascii)              (* a literal character, case ignored *)
| Space                        (* \s *)
| Dot                          (* .  (anything but a line feed) *)
| WordBoundary                 (* \b *)
| Seq (r1 r2 : regex)
| Alt (r1 r2 : regex)
| Star (r : regex).

(** A position in the subject: the character before it, the text after. *)
Definition position : Type := option ascii * string.

Definition next_char (p : position) : option ascii :=
  match snd p with
  | EmptyString => None
  | String c _ => Some c
  end.

Definition word_at (c : option ascii) : bool :=
  match c with
  | Some c => Py.is_word c
  | None => false
  end.

(** Consume one character that satisfies [ok]. *)
Definition take (ok : ascii -> bool) (p : position) : list position :=
  match snd p with
  | EmptyString => []
  | String c rest => if ok c then [(Some c, rest)] else []
  end.

Definition same_letter (c d : ascii) : bool :=
  Ascii.eqb (Py.lower_char c) (Py.lower_char d).

(** [ends r p]: every position at which a match of [r] that starts at [p]
    can end.  A greedy and a lazy star end at the same positions, so
    [.*?] is [Star Dot].  An iteration of a star that consumes nothing is
    dropped, as the engine does; every other iteration consumes a character,
    so the length of the text bounds their number. *)
Fixpoint ends (r : regex) (p : position) : list position :=
  match r with
  | Eps => [p]
  | Chr c => take (same_letter c) p
  | Space => take Py.is_space p
  | Dot => take (fun c => negb (Ascii.eqb c "010"%char)) p
  | WordBoundary =>
      if xorb (word_at (fst p)) (word_at (next_char p)) then [p] else []
  | Seq r1 r2 => flat_map (ends r2) (ends r1 p)
  | Alt r1 r2 => ends r1 p ++ ends r2 p
  | Star r1 =>
      (fix iterate (fuel : nat) (p : position) {struct fuel} : list position :=
         p :: match fuel with
              | O => []
              | S fuel' =>
                  flat_map
                    (fun p' =>
                       if (String.length (snd p') <? String.length (snd p))%nat
                       then iterate fuel' p' else [])
                    (ends r1 p)
              end) (String.length (snd p)) p
  end.

Definition matches_at (r : regex) (p : position) : bool :=
  match ends r p with
  | [] => false
  | _ :: _ => true
  end.

Fixpoint search_from (r : regex) (prev : option ascii) (text : string) : bool :=
  if matches_at r (prev, text) then true
  else match text with
       | EmptyString => false
       | String c text' => search_from r (Some c) text'
       end.

(** [pattern.search(text)], as a truth value. *)
Definition search (r : regex) (text : string) : bool :=
  search_from r None text.

(** ** Writing patterns *)

Fixpoint lit (s : string) : regex :=
  match s with
  | EmptyString => Eps
  | String c EmptyString => Chr c
  | String c s' => Seq (Chr c) (lit s')
  end.

Fixpoint seq (rs : list regex) : regex :=
  match rs with
  | [] => Eps
  | [r] => r
  | r :: rs' => Seq r (seq rs')
  end.

Fixpoint alt (rs : list regex) : regex :=
  match rs with
  | [] => Eps
  | [r] => r
  | r :: rs' => Alt r (alt rs')
  end.

(** [(w1|w2|...)] *)
Definition words (ws : list string) : regex := alt (map lit ws).

(** [\s+] *)
Definition spaces : regex := Seq Space (Star Space).

(** [.*?] *)
Definition anything : regex := Star Dot.

End Re.

(* ===================================================================== *)
(** * src/sentiment.py *)
(* ===================================================================== *)

Module Sentiment.

Import Py.
Local Open Scope Q_scope.
Local Open Scope string_scope.

(** The analyzer-specific entries of a result dictionary. *)
Inductive Details : Type :=
| NoDetails
| VaderDetails (positive neutral negative : Q)
| TextBlobDetails (polarity subjectivity : Q)
| TransformersDetails (raw_label : string) (raw_score : Q).

(** The dictionary a scorer returns and the adjuster updates.  ['compound']
    and ['adjusted_for_comparison'] are absent from some results. *)
Record SentimentResult : Type := {
  score : Q;
  label : string;
  confidence : Q;
  compound : option Q;
  details : Details;
  adjusted_for_comparison : bool
}.

(** [class SentimentAnalyzer(ABC)] *)
Class SentimentAnalyzer (A : Type) : Type := {
  analyze : A -> string -> outcome SentimentResult;
  get_label : A -> Q -> string
}.

(** ** VADERAnalyzer *)

(** What [SentimentIntensityAnalyzer.polarity_scores] returns. *)
Record PolarityScores : Type := {
  ps_neg : Q;
  ps_neu : Q;
  ps_pos : Q;
  ps_compound : Q
}.

Record VADERAnalyzer : Type := {
  polarity_scores : string -> outcome PolarityScores
}.

Definition vader_get_label (score : Q) : string :=
  if geb score 0.05 then "Positive"
  else if leb score (-0.05) then "Negative"
  else "Neutral".

Definition vader_analyze (self : VADERAnalyzer) (text : string)
  : outcome SentimentResult :=
  if is_blank text then
    Returned {| score := 0.0; label := "Neutral"; confidence := 0.0;
                compound := Some 0.0;
                details := VaderDetails 0.0 0.0 0.0;
                adjusted_for_comparison := false |}
  else
    bind (polarity_scores self text) (fun scores =>
      let compound := ps_compound scores in
      Returned {| score := compound;
                  label := vader_get_label compound;
                  confidence := abs compound;
                  compound := Some compound;
                  details := VaderDetails (ps_pos scores) (ps_neu scores)
                               (ps_neg scores);
                  adjusted_for_comparison := false |}).

#[export] Instance VADER_SentimentAnalyzer : SentimentAnalyzer VADERAnalyzer :=
  {| analyze := vader_analyze; get_label := fun _ => vader_get_label |}.

(** ** TextBlobAnalyzer *)

Record TextBlobAnalyzer : Type := {
  (** [TextBlob(text).sentiment]: polarity and subjectivity *)
  blob_sentiment : string -> outcome (Q * Q)
}.

Definition textblob_get_label (score : Q) : string :=
  if gtb score 0.1 then "Positive"
  else if ltb score (-0.1) then "Negative"
  else "Neutral".

Definition textblob_analyze (self : TextBlobAnalyzer) (text : string)
  : outcome SentimentResult :=
  if is_blank text then
    Returned {| score := 0.0; label := "Neutral"; confidence := 0.0;
                compound := None;
                details := TextBlobDetails 0.0 0.0;
                adjusted_for_comparison := false |}
  else
    bind (blob_sentiment self text) (fun sentiment =>
      let polarity := fst sentiment in
      let subjectivity := snd sentiment in
      Returned {| score := polarity;
                  label := textblob_get_label polarity;
                  confidence := abs polarity;
                  compound := None;
                  details := TextBlobDetails polarity subjectivity;
                  adjusted_for_comparison := false |}).

#[export] Instance TextBlob_SentimentAnalyzer
  : SentimentAnalyzer TextBlobAnalyzer :=
  {| analyze := textblob_analyze; get_label := fun _ => textblob_get_label |}.

(** ** TransformersAnalyzer *)

Record TransformersAnalyzer : Type := {
  model_name : string;
  (** [pipeline("sentiment-analysis", model=model_name)(text)[0]]: the
      model's label and its score *)
  pipeline : string -> outcome (string * Q)
}.

Definition transformers_get_label (score : Q) : string :=
  if gtb score 0.5 then "Positive"
  else if ltb score (-0.5) then "Negative"
  else "Neutral".

Definition transformers_analyze (self : TransformersAnalyzer) (text : string)
  : outcome SentimentResult :=
  if is_blank text then
    Returned {| label := "NEUTRAL"; score := 0.0; confidence := 0.0;
                compound := None; details := NoDetails;
                adjusted_for_comparison := false |}
  else
    Returned
      (try_except
         (bind (pipeline self text) (fun result =>
            let label := fst result in
            let score := snd result in
            let '(normalized_score, label_str) :=
              if String.eqb label "POSITIVE" then (score, "Positive")
              else if String.eqb label "NEGATIVE" then (- score, "Negative")
              else (0.0, "Neutral") in
            Returned {| label := label_str;
                        score := normalized_score;
                        confidence := score;
                        compound := None;
                        details := TransformersDetails label score;
                        adjusted_for_comparison := false |}))
         {| label := "Neutral"; score := 0.0; confidence := 0.0;
            compound := None; details := NoDetails;
            adjusted_for_comparison := false |}).

#[export] Instance Transformers_SentimentAnalyzer
  : SentimentAnalyzer TransformersAnalyzer :=
  {| analyze := transformers_analyze;
     get_label := fun _ => transformers_get_label |}.

(** ** SentimentEngine *)

Import Re.

(** [self.negative_patterns]: what reads as a complaint about the current
    state. *)
Definition negative_comparative_patterns : list regex := [
  (* "better than this/that/current/now/this one" *)
  seq [WordBoundary;
       words ["better"; "good"; "great"; "excellent"; "superior"; "improved"];
       spaces; lit "than"; spaces;
       alt [lit "this"; lit "that"; lit "current"; lit "now"; lit "today";
            seq [lit "this"; spaces; lit "one"];
            seq [lit "that"; spaces; lit "one"]]];
  (* "better than it/they is/are now" *)
  seq [WordBoundary;
       words ["better"; "good"; "great"; "excellent"; "superior"; "improved"];
       spaces; lit "than"; spaces; words ["it"; "they"; "we"; "you"];
       spaces; words ["is"; "are"; "was"; "were"; "now"]];
  (* "last/previous experience/time was better than" *)
  seq [WordBoundary; words ["last"; "previous"; "earlier"; "before"]; spaces;
       words ["experience"; "time"; "one"; "service"; "product"]; spaces;
       words ["was"; "were"]; spaces;
       words ["better"; "good"; "great"; "excellent"]; spaces; lit "than"];
  (* "previous/last time/experience was better" *)
  seq [WordBoundary; words ["previous"; "last"; "earlier"; "before"]; spaces;
       words ["time"; "experience"]; spaces; lit "was"; spaces; lit "better"];
  (* "not as good as before/previous/last" *)
  seq [WordBoundary; words ["not"; "isn't"; "aren't"; "wasn't"; "weren't"];
       spaces; words ["as"; "so"]; spaces;
       words ["good"; "great"; "excellent"; "nice"; "well"]; spaces;
       lit "as"; spaces;
       words ["before"; "previously"; "earlier"; "last"; "it"; "they"]];
  (* "this/that/it is not as good" *)
  seq [WordBoundary; words ["this"; "that"; "it"; "they"]; spaces;
       words ["is"; "are"; "was"; "were"]; spaces; lit "not"; spaces;
       words ["as"; "so"]; spaces;
       words ["good"; "great"; "excellent"; "nice"; "well"]];
  (* "worse than before" *)
  seq [WordBoundary; words ["worse"; "worsened"; "declined"; "deteriorated"];
       spaces; lit "than"; spaces;
       words ["before"; "previously"; "earlier"; "last"]];
  (* "used to be better" *)
  seq [WordBoundary;
       seq [lit "used"; spaces; lit "to"; spaces; lit "be"]; spaces;
       words ["better"; "good"; "great"]];
  (* "didn't/don't find... interesting/good/great" *)
  seq [WordBoundary;
       alt [lit "didn't"; lit "don't"; lit "doesn't"; lit "didnt"; lit "dont";
            lit "doesnt"; seq [lit "did"; spaces; lit "not"];
            seq [lit "do"; spaces; lit "not"];
            seq [lit "does"; spaces; lit "not"]];
       spaces; lit "find"; anything;
       words ["interesting"; "good"; "great"; "excellent"; "nice";
              "enjoyable"; "engaging"]];
  (* "not interesting/not good/not great" *)
  seq [WordBoundary; words ["not"; "isn't"; "aren't"; "wasn't"; "weren't"];
       spaces;
       words ["interesting"; "good"; "great"; "excellent"; "nice";
              "enjoyable"; "engaging"; "worthwhile"]];
  (* Negative phrases like "rubbish", "nonsense", "stupid", etc. *)
  seq [WordBoundary;
       words ["rubbish"; "nonsense"; "stupid"; "idiotic"; "ridiculous";
              "terrible"; "awful"; "horrible"; "disgusting"; "pathetic"]];
  (* "don't talk rubbish/nonsense" *)
  seq [WordBoundary; alt [lit "don't"; seq [lit "do"; spaces; lit "not"]];
       spaces; lit "talk"; spaces;
       words ["rubbish"; "nonsense"; "garbage"; "trash"; "crap"]]
].

(** [self.positive_patterns]: explicit improvement over time. *)
Definition positive_comparative_patterns : list regex := [
  seq [WordBoundary;
       words ["better"; "good"; "great"; "excellent"; "improved"]; spaces;
       lit "than"; spaces; words ["before"; "previously"; "earlier"; "last"]];
  seq [WordBoundary; words ["improved"; "improving"; "better"]; spaces;
       words ["than"; "from"]; spaces;
       words ["before"; "previously"; "earlier"; "last"]]
].

(** [for pattern in patterns: if pattern.search(text): ...]: the first
    pattern that is found in the text, if any. *)
Definition first_match (patterns : list regex) (text : string)
  : option regex :=
  find (fun pattern => search pattern text) patterns.

Definition very_negative_phrases : list string :=
  ["rubbish"; "nonsense"; "garbage"; "trash"; "crap"; "stupid"; "idiotic"].

Definition not_find_phrases : list string :=
  ["didn't find"; "don't find"; "not find"; "didnt find"; "dont find"].

Definition find_adjectives : list string :=
  ["interesting"; "good"; "great"; "enjoyable"; "engaging"].

(** The score a matched negative pattern leads to, before clamping. *)
Definition negative_adjustment (text_lower : string) (original_score : Q)
  : Q :=
  if any_in very_negative_phrases text_lower then -0.7
  else if any_in not_find_phrases text_lower then
         if any_in find_adjectives text_lower then -0.6 else -0.4
  else if gtb original_score 0 then - abs original_score - 0.4
  else original_score - 0.4.

(** The score a matched positive pattern leads to, before clamping. *)
Definition positive_adjustment (original_score : Q) : Q :=
  if ltb original_score 0 then abs original_score + 0.2
  else original_score + 0.2.

(** [max(-1.0, min(1.0, adjusted_score))] *)
Definition clamp (adjusted_score : Q) : Q :=
  max (-1.0) (min 1.0 adjusted_score).

Section Engine.

Context {A : Type} `{SentimentAnalyzer A}.

(** [self.analyzer] *)
Variable analyzer : A.

(** The five assignments that follow the clamping. *)
Definition store_adjusted (base_result : SentimentResult)
  (adjusted_score : Q) : SentimentResult :=
  {| score := adjusted_score;
     compound := Some adjusted_score;
     label := get_label analyzer adjusted_score;
     confidence := abs adjusted_score;
     details := details base_result;
     adjusted_for_comparison := true |}.

Definition _detect_comparative_sentiment (text : string)
  (base_result : SentimentResult) : SentimentResult :=
  let text_lower := lower text in
  match first_match negative_comparative_patterns text with
  | Some _ =>
      let original_score := score base_result in
      let adjusted_score := negative_adjustment text_lower original_score in
      let adjusted_score := clamp adjusted_score in
      store_adjusted base_result adjusted_score
  | None =>
      match first_match positive_comparative_patterns text with
      | Some _ =>
          let original_score := score base_result in
          let adjusted_score := positive_adjustment original_score in
          let adjusted_score := clamp adjusted_score in
          store_adjusted base_result adjusted_score
      | None => base_result
      end
  end.

(** The dictionary of the [except] branch of [analyze_text]. *)
Definition neutral_result : SentimentResult :=
  {| score := 0.0; label := "Neutral"; confidence := 0.0;
     compound := None; details := NoDetails;
     adjusted_for_comparison := false |}.

(** On a text that is not a string the scorer's [text.strip()] or, when
    the scorer took the falsy value for an empty text, the adjuster's
    [text.lower()] raises [AttributeError] inside the [try]. *)
Definition analyze_text (text : pyvalue) : SentimentResult :=
  try_except
    (match text with
     | PStr text =>
         bind (analyze analyzer text) (fun result =>
           let result := _detect_comparative_sentiment text result in
           Returned result)
     | _ => Raised "AttributeError"
     end)
    neutral_result.

(** The text an element of [messages] is analysed for: [msg['text']] of a
    dictionary that has the key, the element itself when it is a string;
    any other element is passed over. *)
Definition message_text (msg : pyvalue) : option pyvalue :=
  match msg with
  | PDict entries => dict_get "text" entries
  | PStr _ => Some msg
  | _ => None
  end.

(** The loop over [messages]: one result per element that has a text. *)
Fixpoint analyze_messages (messages : list pyvalue)
  : list SentimentResult :=
  match messages with
  | [] => []
  | msg :: rest =>
      match message_text msg with
      | Some text => analyze_text text :: analyze_messages rest
      | None => analyze_messages rest
      end
  end.

End Engine.

Record LabelCounts : Type := {
  Positive : nat;
  Negative : nat;
  Neutral : nat
}.

Record ConversationSummary : Type := {
  overall_sentiment : string;
  average_score : Q;
  total_messages : nat;
  label_distribution : option LabelCounts;
  reasoning : string;
  scores : option (list Q);
  labels : option (list string)
}.

Definition _generate_reasoning (avg_score : Q) (label_counts : LabelCounts)
  (total : nat) (overall_label : string) : string :=
  let positive_count := Positive label_counts in
  let negative_count := Negative label_counts in
  let neutral_count := Neutral label_counts in
  if String.eqb overall_label "Negative" then
    if (positive_count <? negative_count)%nat then
      "Generally negative conversation with " ++ str_nat negative_count
        ++ "/" ++ str_nat total
        ++ " negative messages. User expressed dissatisfaction or concerns."
    else if (negative_count =? positive_count)%nat then
      "Mixed conversation with negative tone. Equal negative and positive messages ("
        ++ str_nat negative_count
        ++ " each), but overall sentiment is negative."
    else
      "Conversation with negative overall tone despite "
        ++ str_nat positive_count
        ++ " positive messages. Strong negative statements influenced the assessment."
  else if String.eqb overall_label "Positive" then
    if (negative_count <? positive_count)%nat then
      "Generally positive conversation with " ++ str_nat positive_count
        ++ "/" ++ str_nat total
        ++ " positive messages. User expressed satisfaction or positive feedback."
    else if (positive_count =? negative_count)%nat then
      "Mixed conversation with positive tone. Equal positive and negative messages ("
        ++ str_nat positive_count
        ++ " each), but overall sentiment is positive."
    else
      "Conversation with positive overall tone. Average sentiment score of "
        ++ format_fixed 3 avg_score ++ " indicates positive engagement."
  else
    "Neutral conversation with balanced sentiment. Distribution: "
      ++ str_nat positive_count ++ " positive, " ++ str_nat negative_count
      ++ " negative, " ++ str_nat neutral_count ++ " neutral messages.".

(** The decision cascade of [analyze_conversation]. *)
Definition overall_label_of (scores : list Q) (label_counts : LabelCounts)
  (avg_score : Q) : string :=
  let positive_count := Z.of_nat (Positive label_counts) in
  let negative_count := Z.of_nat (Negative label_counts) in
  let strong_negative_count :=
    Z.of_nat (List.length (filter (fun score => ltb score (-0.3)) scores)) in
  let strong_positive_count :=
    Z.of_nat (List.length (filter (fun score => gtb score 0.3) scores)) in
  if (negative_count >? positive_count)%Z
     && ((negative_count - positive_count >=? 1)%Z
         || (strong_negative_count >? 0)%Z)
  then "Negative"
  else if (positive_count >? negative_count)%Z
          && (positive_count - negative_count >=? 2)%Z
  then "Positive"
  else if (strong_negative_count >? 0)%Z
          && (negative_count >=? positive_count)%Z
  then "Negative"
  else if (strong_positive_count >? 0)%Z
          && (positive_count >? negative_count)%Z
  then "Positive"
  else if ltb avg_score (-0.1) then "Negative"
  else if gtb avg_score 0.1 then "Positive"
  else "Neutral".

Section Conversation.

Context {A : Type} `{SentimentAnalyzer A}.
Variable analyzer : A.

Definition analyze_conversation (messages : list pyvalue)
  : ConversationSummary :=
  match messages with
  | [] =>
      {| overall_sentiment := "Neutral";
         average_score := 0.0;
         total_messages := 0;
         label_distribution := None;
         reasoning := "No messages to analyze";
         scores := None;
         labels := None |}
  | _ :: _ =>
      let results := analyze_messages analyzer messages in
      let scores := map score results in
      let labels := map label results in
      match scores with
      | [] =>
          {| overall_sentiment := "Neutral";
             average_score := 0.0;
             total_messages := 0;
             label_distribution := None;
             reasoning := "No valid messages to analyze";
             scores := None;
             labels := None |}
      | _ :: _ =>
          let avg_score := sum scores / len scores in
          let label_counts :=
            {| Positive := count "Positive" labels;
               Negative := count "Negative" labels;
               Neutral := count "Neutral" labels |} in
          let total := List.length labels in
          let overall_label :=
            overall_label_of scores label_counts avg_score in
          let reasoning :=
            _generate_reasoning avg_score label_counts total overall_label in
          {| overall_sentiment := overall_label;
             average_score := avg_score;
             total_messages := total;
             label_distribution := Some label_counts;
             reasoning := reasoning;
             scores := Some scores;
             labels := Some labels |}
      end
  end.

End Conversation.

End Sentiment.

(* ===================================================================== *)
(** * The result dictionaries as objects *)
(* ===================================================================== *)

(** [analyze] of every scorer builds the dictionary it returns;
    [_detect_comparative_sentiment] assigns into the dictionary it is handed
    and returns that same dictionary.  Here the dictionaries live in a
    store and are passed by reference, a reference being the position of
    its dictionary in the store. *)
Module Objects.

Import Py Sentiment.

Definition store : Type := list SentimentResult.

Definition reference : Type := nat.

(** A dictionary display: a new object. *)
Definition allocate (objects : store) (d : SentimentResult)
  : store * reference :=
  (objects ++ [d], List.length objects).

Definition read (objects : store) (r : reference)
  : option SentimentResult :=
  nth_error objects r.

(** The assignments into the dictionary behind [r], taken together. *)
Fixpoint assign (objects : store) (r : reference) (d : SentimentResult)
  : store :=
  match objects, r with
  | [], _ => []
  | _ :: rest, O => d :: rest
  | x :: rest, S r => x :: assign rest r d
  end.

Section Engine.

Context {A : Type} `{SentimentAnalyzer A}.

(** [self.analyzer] *)
Variable analyzer : A.

(** [self.analyzer.analyze(text)] *)
Definition analyze (objects : store) (text : string)
  : outcome (store * reference) :=
  bind (Sentiment.analyze analyzer text) (fun d =>
  Returned (allocate objects d)).

(** The adjuster: it writes to [base_result] and returns it. *)
Definition _detect_comparative_sentiment (objects : store) (text : string)
  (base_result : reference) : store * reference :=
  match read objects base_result with
  | Some d =>
      (assign objects base_result
         (Sentiment._detect_comparative_sentiment analyzer text d),
       base_result)
  | None => (objects, base_result)
  end.

Definition analyze_text (objects : store) (text : pyvalue)
  : store * reference :=
  match
    match text with
    | PStr text =>
        bind (analyze objects text) (fun '(objects, result) =>
        Returned (_detect_comparative_sentiment objects text result))
    | _ => Raised "AttributeError"
    end
  with
  | Returned result => result
  | Raised _ => allocate objects neutral_result
  end.

End Engine.

End Objects.
(* ===================================================================== *)
(** * Python floats *)
(* ===================================================================== *)

Module Float64.

Local Open Scope float_scope.

(** [x > y] *)
Definition gtb (x y : float) : bool := PrimFloat.ltb y x.

(** [sum(xs)]: left to right from the integer 0, which the first addition
    turns into 0.0. *)
Definition sum (xs : list float) : float := fold_left PrimFloat.add xs 0.

(** An [int] where a float is wanted, as in [x / len(xs)]: the nearest
    float, for the lengths a list can have (below 2^63). *)
Definition of_nat (n : nat) : float :=
  of_uint63 (Uint63.of_Z (Z.of_nat n)).

(** [len(xs)] as a float divisor. *)
Definition len {A} (xs : list A) : float := of_nat (List.length xs).

(** [x ** 2], the power taken as correctly rounded: the rounded product. *)
Definition square (x : float) : float := x * x.

(** The exact value of a finite float. *)
Definition to_Q (s : bool) (m : positive) (e : Z) : Q :=
  let z := if s then Zneg m else Zpos m in
  match e with
  | Zneg p => z # (2 ^ p)%positive
  | _ => inject_Z (z * 2 ^ e)
  end.

(** [f"{x:.{d}f}"]: the exact value, rounded half to even. *)
Definition format_fixed (d : nat) (x : float) : string :=
  match Prim2SF x with
  | S754_nan => "nan"
  | S754_infinity s => if s then "-inf" else "inf"
  | S754_zero s =>
      ((if s then "-" else "") ++ Py.format_fixed d 0%Q)%string
  | S754_finite s m e => Py.format_fixed d (to_Q s m e)
  end.

End Float64.

(* ===================================================================== *)
(** * src/analyzer.py *)
(* ===================================================================== *)

Module Analyzer.

Import Py.
Local Open Scope float_scope.
Local Open Scope string_scope.

Inductive Trend : Type :=
| improving
| declining
| stable
| insufficient_data.

Record ProgressionEntry : Type := {
  message_index : nat;
  score : float;
  label : string;
  cumulative_avg : float
}.

(** The two kinds of record of [key_moments], told apart by ['type']. *)
Inductive KeyMoment : Type :=
| significant_shift (message_index : nat) (direction : string)
    (magnitude from_score to_score : float) (from_label to_label : string)
| extreme_sentiment (message_index : nat) (sentiment : string) (score : float).

(** The dictionary [analyze_trend] returns; the result for too few scores
    has no ['key_moments'] and no ['volatility'] entry. *)
Record TrendAnalysis : Type := {
  trend : Trend;
  description : string;
  first_half_avg : float;
  second_half_avg : float;
  progression : list ProgressionEntry;
  key_moments : option (list KeyMoment);
  volatility : option float
}.

(** [xs[i]] for [i >= 0] *)
Definition index {T} (xs : list T) (i : nat) : outcome T :=
  match nth_error xs i with
  | Some x => Returned x
  | None => Raised "IndexError"
  end.

(** [enumerate(xs)] *)
Definition enumerate {T} (xs : list T) : list (nat * T) :=
  combine (seq 0 (List.length xs)) xs.

Definition _determine_trend (first_avg second_avg : float) : Trend :=
  let threshold := 0.1 in
  if Float64.gtb (second_avg - first_avg) threshold then improving
  else if Float64.gtb (first_avg - second_avg) threshold then declining
  else stable.

Definition _generate_trend_description (trend : Trend)
  (first_avg second_avg : float) : string :=
  match trend with
  | improving =>
      if PrimFloat.ltb first_avg (-0.1) then
        "Started negative → Shifted positive (improved from "
          ++ Float64.format_fixed 2 first_avg ++ " to "
          ++ Float64.format_fixed 2 second_avg ++ ")"
      else
        "Became increasingly positive (improved from "
          ++ Float64.format_fixed 2 first_avg ++ " to "
          ++ Float64.format_fixed 2 second_avg ++ ")"
  | declining =>
      if PrimFloat.ltb second_avg (-0.1) then
        "Started positive/neutral → Shifted negative (declined from "
          ++ Float64.format_fixed 2 first_avg ++ " to "
          ++ Float64.format_fixed 2 second_avg ++ ")"
      else
        "Became less positive (declined from "
          ++ Float64.format_fixed 2 first_avg ++ " to "
          ++ Float64.format_fixed 2 second_avg ++ ")"
  | _ =>
      "Remained relatively stable (around "
        ++ Float64.format_fixed 2 first_avg ++ ")"
  end.

Definition _calculate_progression (scores : list float)
  (labels : list string) : list ProgressionEntry :=
  map (fun '(i, (score, label)) =>
         {| message_index := i + 1;
            score := score;
            label := label;
            cumulative_avg :=
              Float64.sum (firstn (i + 1) scores) / Float64.of_nat (i + 1) |})
      (enumerate (combine scores labels)).

(** One turn of the loop of [_identify_key_moments]: the records appended
    for index [i]. *)
Definition key_moments_at (scores : list float) (labels : list string)
  (i : nat) : outcome (list KeyMoment) :=
  bind (index scores i) (fun scores_i =>
  bind (index scores (i - 1)) (fun scores_i1 =>
  let change := PrimFloat.abs (scores_i - scores_i1) in
  bind
    (* Significant shift (change > 0.3) *)
    (if Float64.gtb change 0.3 then
       let direction :=
         if Float64.gtb scores_i scores_i1 then "positive" else "negative" in
       bind (index labels (i - 1)) (fun from_label =>
       bind (index labels i) (fun to_label =>
       Returned [significant_shift (i + 1) direction change
                   scores_i1 scores_i from_label to_label]))
     else Returned [])
    (fun shift =>
  bind
    (* Extreme sentiment (very positive or very negative) *)
    (if Float64.gtb (PrimFloat.abs scores_i) 0.7 then
       bind (index labels i) (fun sentiment =>
       Returned [extreme_sentiment (i + 1) sentiment scores_i])
     else Returned [])
    (fun extreme =>
  Returned (shift ++ extreme)%list)))).

(** [for i in indices: ...], appending to [key_moments]. *)
Fixpoint key_moments_loop (scores : list float) (labels : list string)
  (indices : list nat) (key_moments : list KeyMoment)
  : outcome (list KeyMoment) :=
  match indices with
  | [] => Returned key_moments
  | i :: rest =>
      bind (key_moments_at scores labels i) (fun found =>
      key_moments_loop scores labels rest (key_moments ++ found)%list)
  end.

Definition _identify_key_moments (scores : list float)
  (labels : list string) : outcome (list KeyMoment) :=
  let key_moments := [] in
  if (List.length scores <? 2)%nat then Returned key_moments
  else
    (* range(1, len(scores)) *)
    key_moments_loop scores labels (seq 1 (List.length scores - 1))
      key_moments.

(** [sum((x - mean) ** 2 for x in scores) / len(scores)] *)
Definition variance (scores : list float) : float :=
  let mean := Float64.sum scores / Float64.len scores in
  Float64.sum (map (fun x => Float64.square (x - mean)) scores)
  / Float64.len scores.

(** [variance ** 0.5] is taken as the correctly rounded square root. *)
Definition _calculate_volatility (scores : list float) : float :=
  if (List.length scores <? 2)%nat then 0.0
  else PrimFloat.sqrt (variance scores).

Definition analyze_trend (sentiment_scores : list float)
  (sentiment_labels : list string) : outcome TrendAnalysis :=
  if (List.length sentiment_scores <? 2)%nat then
    Returned {| trend := insufficient_data;
                description := "Not enough messages to analyze trend";
                first_half_avg := 0.0;
                second_half_avg := 0.0;
                progression := [];
                key_moments := None;
                volatility := None |}
  else
    let mid_point := Nat.div (List.length sentiment_scores) 2 in
    let first_half := firstn mid_point sentiment_scores in
    let second_half := skipn mid_point sentiment_scores in
    let first_half_avg :=
      match first_half with
      | [] => 0.0
      | _ => Float64.sum first_half / Float64.len first_half
      end in
    let second_half_avg :=
      match second_half with
      | [] => 0.0
      | _ => Float64.sum second_half / Float64.len second_half
      end in
    let trend := _determine_trend first_half_avg second_half_avg in
    let description :=
      _generate_trend_description trend first_half_avg second_half_avg in
    let progression :=
      _calculate_progression sentiment_scores sentiment_labels in
    bind (_identify_key_moments sentiment_scores sentiment_labels)
      (fun key_moments =>
    Returned {| trend := trend;
                description := description;
                first_half_avg := first_half_avg;
                second_half_avg := second_half_avg;
                progression := progression;
                key_moments := Some key_moments;
                volatility :=
                  Some (_calculate_volatility sentiment_scores) |}).

Definition is_significant_shift (m : KeyMoment) : bool :=
  match m with
  | significant_shift _ _ _ _ _ _ _ => true
  | extreme_sentiment _ _ _ => false
  end.

(** The four sentences of [summarize_insights], by part. *)
Definition trend_insight (t : Trend) : string :=
  match t with
  | improving => "Conversation mood improved over time"
  | declining => "Conversation mood declined over time"
  | _ => "Sentiment remained relatively consistent"
  end.

Definition shift_insight (key_moments : option (list KeyMoment))
  : list string :=
  match key_moments with
  | Some ((_ :: _) as moments) =>
      let significant_shifts := filter is_significant_shift moments in
      match significant_shifts with
      | [] => []
      | _ :: _ =>
          ["Detected " ++ str_nat (List.length significant_shifts)
             ++ " significant sentiment shift(s)"]
      end
  | _ => []
  end.

Definition distribution_insight
  (label_distribution : option Sentiment.LabelCounts) : list string :=
  match label_distribution with
  | Some dist =>
      let total :=
        (Sentiment.Positive dist + Sentiment.Negative dist
         + Sentiment.Neutral dist)%nat in
      if (Sentiment.Negative dist <? Sentiment.Positive dist)%nat then
        ["Predominantly positive messages ("
           ++ str_nat (Sentiment.Positive dist) ++ "/" ++ str_nat total ++ ")"]
      else if (Sentiment.Positive dist <? Sentiment.Negative dist)%nat then
        ["Predominantly negative messages ("
           ++ str_nat (Sentiment.Negative dist) ++ "/" ++ str_nat total ++ ")"]
      else ["Balanced mix of positive and negative messages"]
  | None => []
  end.

Definition volatility_insight (volatility : option float) : list string :=
  let volatility :=
    match volatility with
    | Some v => v
    | None => 0.0
    end in
  if Float64.gtb volatility 0.3 then
    ["High sentiment volatility - mood changed frequently"]
  else if PrimFloat.ltb volatility 0.1 then
    ["Low sentiment volatility - consistent emotional tone"]
  else [].

Definition summarize_insights (trend_analysis : TrendAnalysis)
  (overall_sentiment : Sentiment.ConversationSummary) : list string :=
  let insights := [] in
  let insights := (insights ++ [trend_insight (trend trend_analysis)])%list in
  let insights :=
    (insights ++ shift_insight (key_moments trend_analysis))%list in
  let insights :=
    (insights
       ++ distribution_insight
            (Sentiment.label_distribution overall_sentiment))%list in
  let insights :=
    (insights ++ volatility_insight (volatility trend_analysis))%list in
  insights.

End Analyzer.

(* ===================================================================== *)
(** * What the specification says the trend analyzer computes *)
(* ===================================================================== *)

Module Spec.

Import Analyzer.
Local Open Scope float_scope.
Local Open Scope string_scope.

(** The records of one adjacent pair [(i-1, i)]: a [significant_shift]
    when the scores differ by more than 0.3, then an [extreme_sentiment]
    when the later score is beyond 0.7 in absolute value, both at message
    index [i+1]. *)
Definition moments_of_pair (scores : list float) (labels : list string)
  (i : nat) : list KeyMoment :=
  let before := nth (i - 1) scores 0 in
  let after := nth i scores 0 in
  ((if PrimFloat.ltb 0.3 (PrimFloat.abs (after - before)) then
      [significant_shift (i + 1)
         (if PrimFloat.ltb before after then "positive" else "negative")
         (PrimFloat.abs (after - before)) before after
         (nth (i - 1) labels "") (nth i labels "")]
    else [])
   ++ (if PrimFloat.ltb 0.7 (PrimFloat.abs after) then
         [extreme_sentiment (i + 1) (nth i labels "") after]
       else []))%list.

(** The pairs in ascending order of [i >= 1]. *)
Definition key_moments (scores : list float) (labels : list string)
  : list KeyMoment :=
  flat_map (moments_of_pair scores labels)
    (seq 1 (List.length scores - 1)).

(** Where a record stands in the sequence: by message index, a shift
    ahead of the extreme of the same index. *)
Definition position_of (m : KeyMoment) : nat :=
  match m with
  | significant_shift message_index _ _ _ _ _ _ => 2 * message_index
  | extreme_sentiment message_index _ _ => 2 * message_index + 1
  end.

(** [mean(xs)] *)
Definition mean (xs : list float) : float :=
  Float64.sum xs / Float64.len xs.


End Spec.

(* ===================================================================== *)
(** * Inputs to run the program on *)
(* ===================================================================== *)

Module Examples.

Import Py Sentiment.
Local Open Scope Q_scope.
Local Open Scope string_scope.

(** The libraries behind the analyzers are outside the program; these
    stand-ins answer every text alike. *)
Definition constant_vader (compound : Q) : VADERAnalyzer :=
  {| polarity_scores := fun _ =>
       Returned {| ps_neg := 0; ps_neu := 1; ps_pos := 0;
                   ps_compound := compound |} |}.

Definition constant_pipeline (raw_label : string) (raw_score : Q)
  : TransformersAnalyzer :=
  {| model_name := "distilbert-base-uncased-finetuned-sst-2-english";
     pipeline := fun _ => Returned (raw_label, raw_score) |}.

(** A model whose call fails on every text. *)
Definition failing_pipeline : TransformersAnalyzer :=
  {| model_name := "distilbert-base-uncased-finetuned-sst-2-english";
     pipeline := fun _ => Raised "RuntimeError" |}.

(** An element of [messages] that the aggregator analyses: a string, or a
    dictionary with a ['text'] key. *)
Definition is_message (msg : pyvalue) : bool :=
  match msg with
  | PStr _ => true
  | PDict entries =>
      existsb (fun entry => String.eqb (fst entry) "text") entries
  | _ => false
  end.

End Examples.
(* ===================================================================== *)
(** * Properties *)
(* ===================================================================== *)

Import Py Examples.
Local Open Scope Q_scope.
Local Open Scope string_scope.
Local Open Scope list_scope.

(** Linear arithmetic over the rationals. *)
Ltac qlra := Lqa.lra.

(** ** Comparisons and strings *)

Lemma ltb_lt (x y : Q) : ltb x y = true <-> x < y.
Proof.
  unfold ltb. rewrite negb_true_iff.
  split; intro Hxy.
  - apply Qnot_le_lt. intro Hle. apply Qle_bool_iff in Hle. congruence.
  - destruct (Qle_bool y x) eqn:E; [|reflexivity].
    apply Qle_bool_iff in E. exfalso. exact (Qlt_not_le _ _ Hxy E).
Qed.

Lemma ltb_ge (x y : Q) : ltb x y = false <-> y <= x.
Proof.
  unfold ltb. rewrite negb_false_iff. apply Qle_bool_iff.
Qed.

Lemma gtb_gt (x y : Q) : gtb x y = true <-> y < x.
Proof. apply ltb_lt. Qed.

Lemma gtb_le (x y : Q) : gtb x y = false <-> x <= y.
Proof. apply ltb_ge. Qed.

(** Case analysis on every float comparison in sight. *)
Ltac compare_floats :=
  unfold gtb in *;
  repeat match goal with
    | |- context [ltb ?x ?y] =>
        let E := fresh "E" in
        destruct (ltb x y) eqn:E;
        [apply ltb_lt in E|apply ltb_ge in E]
    | _ : context [ltb ?x ?y] |- _ =>
        let E := fresh "E" in
        destruct (ltb x y) eqn:E;
        [apply ltb_lt in E|apply ltb_ge in E]
    end.

Lemma lstrip_spaces (s : string) :
  (forall c, In c (list_ascii_of_string s) -> is_space c = true) ->
  lstrip s = EmptyString.
Proof.
  induction s as [|c s IH]; intro Hall; simpl; [reflexivity|].
  rewrite (Hall c) by (simpl; auto).
  apply IH. intros d Hd. apply Hall. simpl. auto.
Qed.

(** A text made of whitespace only, the empty one included, is blank. *)
Lemma whitespace_is_blank (text : string) :
  (forall c, In c (list_ascii_of_string text) -> is_space c = true) ->
  is_blank text = true.
Proof.
  intro Hall. unfold is_blank, strip.
  rewrite (lstrip_spaces _ Hall). simpl. apply orb_true_r.
Qed.

(** ** The pattern tables on a few sentences *)

Example comparative_sentence_matches :
  Re.search (nth 0 Sentiment.negative_comparative_patterns Re.Eps)
    "This is BETTER  than this one."
  = true.
Proof. reflexivity. Qed.

Example word_boundary_is_required :
  Sentiment.first_match Sentiment.negative_comparative_patterns "xrubbish"
  = None.
Proof. reflexivity. Qed.

Example improvement_is_not_a_complaint :
  Sentiment.first_match Sentiment.negative_comparative_patterns
    "It is better than before"
  = None
  /\ Sentiment.first_match Sentiment.positive_comparative_patterns
       "It is better than before"
     <> None.
Proof. split; [reflexivity|discriminate]. Qed.

Example blank_text_matches_nothing :
  Sentiment.first_match Sentiment.negative_comparative_patterns "   " = None
  /\ Sentiment.first_match Sentiment.positive_comparative_patterns "   " = None.
Proof. split; reflexivity. Qed.

(** ** The adjuster keeps the label in step with the score *)

Import Sentiment.

Section Adjuster.

Context {A : Type} `{SentimentAnalyzer A}.
Variable analyzer : A.

Lemma store_adjusted_label (base : SentimentResult) (x : Q) :
  label (store_adjusted analyzer base x)
  = get_label analyzer (score (store_adjusted analyzer base x)).
Proof. reflexivity. Qed.

(** What the adjuster does, by which table matched. *)
Lemma detect_cases (text : string) (base : SentimentResult) :
  (first_match negative_comparative_patterns text <> None
   /\ _detect_comparative_sentiment analyzer text base
      = store_adjusted analyzer base
          (clamp (negative_adjustment (lower text) (score base))))
  \/ (first_match negative_comparative_patterns text = None
      /\ first_match positive_comparative_patterns text <> None
      /\ _detect_comparative_sentiment analyzer text base
         = store_adjusted analyzer base
             (clamp (positive_adjustment (score base))))
  \/ (first_match negative_comparative_patterns text = None
      /\ first_match positive_comparative_patterns text = None
      /\ _detect_comparative_sentiment analyzer text base = base).
Proof.
  unfold _detect_comparative_sentiment.
  destruct (first_match negative_comparative_patterns text) eqn:En.
  - left. split; [discriminate|reflexivity].
  - right.
    destruct (first_match positive_comparative_patterns text) eqn:Ep.
    + left. repeat split; [discriminate].
    + right. repeat split.
Qed.

Lemma detect_keeps_label (text : string) (base : SentimentResult) :
  label base = get_label analyzer (score base) ->
  label (_detect_comparative_sentiment analyzer text base)
  = get_label analyzer
      (score (_detect_comparative_sentiment analyzer text base)).
Proof.
  intro Hbase.
  destruct (detect_cases text base) as [[_ E]|[(_ & _ & E)|(_ & _ & E)]];
    rewrite E; [apply store_adjusted_label..|exact Hbase].
Qed.

Lemma detect_fired_label (text : string) (base : SentimentResult) :
  adjusted_for_comparison base = false ->
  adjusted_for_comparison (_detect_comparative_sentiment analyzer text base)
  = true ->
  label (_detect_comparative_sentiment analyzer text base)
  = get_label analyzer
      (score (_detect_comparative_sentiment analyzer text base)).
Proof.
  intros Hbase.
  destruct (detect_cases text base) as [[_ E]|[(_ & _ & E)|(_ & _ & E)]];
    rewrite E; intro Hfired; [apply store_adjusted_label..|congruence].
Qed.

End Adjuster.

(** ** Each scorer on its own *)

Lemma vader_analyze_label (a : VADERAnalyzer) (text : string)
  (r : SentimentResult) :
  analyze a text = Returned r -> label r = get_label a (score r).
Proof.
  simpl. unfold vader_analyze.
  destruct (is_blank text).
  - intro E. inversion E. reflexivity.
  - destruct (polarity_scores a text) as [ps|e]; simpl; intro E;
      inversion E; reflexivity.
Qed.

Lemma textblob_analyze_label (a : TextBlobAnalyzer) (text : string)
  (r : SentimentResult) :
  analyze a text = Returned r -> label r = get_label a (score r).
Proof.
  simpl. unfold textblob_analyze.
  destruct (is_blank text).
  - intro E. inversion E. reflexivity.
  - destruct (blob_sentiment a text) as [ps|e]; simpl; intro E;
      inversion E; reflexivity.
Qed.

Lemma transformers_analyze_unadjusted (a : TransformersAnalyzer)
  (text : string) (r : SentimentResult) :
  analyze a text = Returned r -> adjusted_for_comparison r = false.
Proof.
  simpl. unfold transformers_analyze.
  destruct (is_blank text); intro E; inversion E; [reflexivity|].
  destruct (pipeline a text) as [[l s]|e]; simpl; [|reflexivity].
  destruct (String.eqb l "POSITIVE"); [reflexivity|].
  destruct (String.eqb l "NEGATIVE"); reflexivity.
Qed.

(** The engine on a scorer that labels its own results with [get_label]. *)
Lemma analyze_text_label_generic {A : Type} `{SentimentAnalyzer A} (a : A) :
  get_label a 0.0 = "Neutral" ->
  (forall text r, analyze a text = Returned r ->
                  label r = get_label a (score r)) ->
  forall text : pyvalue,
    label (analyze_text a text) = get_label a (score (analyze_text a text)).
Proof.
  intros Hzero Hscorer text. unfold analyze_text.
  destruct text; simpl; try (symmetry; exact Hzero).
  destruct (analyze a s) as [r|e] eqn:E; simpl.
  - apply detect_keeps_label. exact (Hscorer s r E).
  - symmetry. exact Hzero.
Qed.

(** ** C1: the label of a result against [get_label] of its score *)

(** C1, as stated, fails.  A Transformers engine whose model answers
    POSITIVE with score 0.5 returns, on a text no pattern matches, the base
    result unchanged: its label is the model's, Positive, while [get_label]
    of its score 0.5 is Neutral. *)
Lemma transformers_label_differs_from_get_label :
  let a := constant_pipeline "POSITIVE" 0.5 in
  let r := analyze_text a (PStr "ok") in
  adjusted_for_comparison r = false
  /\ score r = 0.5
  /\ label r = "Positive"
  /\ get_label a (score r) = "Neutral"
  /\ label r <> get_label a (score r).
Proof.
  vm_compute. repeat split. discriminate.
Qed.

(** C1, amended.  With a VADER or a TextBlob scorer every result of
    [analyze_text] has [label = get_label(score)].  With a Transformers
    scorer this holds whenever the adjuster fired and whenever the model
    call failed; when the model's answer for a non-blank text is returned
    unchanged, the label is the model's own label put in standard form, and
    it agrees with [get_label(score)] exactly when the model's score exceeds
    0.5 or its label is neither POSITIVE nor NEGATIVE. *)
Theorem analyze_text_label_follows_score :
  (forall (a : VADERAnalyzer) (text : pyvalue),
      let r := analyze_text a text in
      label r = get_label a (score r))
  /\ (forall (a : TextBlobAnalyzer) (text : pyvalue),
         let r := analyze_text a text in
         label r = get_label a (score r))
  /\ (forall (a : TransformersAnalyzer) (text : pyvalue),
         let r := analyze_text a text in
         adjusted_for_comparison r = true ->
         label r = get_label a (score r))
  /\ (forall (a : TransformersAnalyzer) (text e : string),
         is_blank text = false ->
         pipeline a text = Raised e ->
         let r := analyze_text a (PStr text) in
         label r = get_label a (score r))
  /\ (forall (a : TransformersAnalyzer) (text raw_label : string)
             (raw_score : Q),
         is_blank text = false ->
         pipeline a text = Returned (raw_label, raw_score) ->
         let r := analyze_text a (PStr text) in
         adjusted_for_comparison r = false ->
         label r = (if String.eqb raw_label "POSITIVE" then "Positive"
                    else if String.eqb raw_label "NEGATIVE" then "Negative"
                    else "Neutral")
         /\ (label r = get_label a (score r)
             <-> (raw_label = "POSITIVE" \/ raw_label = "NEGATIVE" ->
                  0.5 < raw_score))).
Proof.
  split; [|split; [|split; [|split]]].
  - intros a text.
    apply (analyze_text_label_generic a); [reflexivity|].
    apply vader_analyze_label.
  - intros a text.
    apply (analyze_text_label_generic a); [reflexivity|].
    apply textblob_analyze_label.
  - intros a text. cbv zeta. unfold analyze_text.
    destruct text; simpl; try (intro Hfired; discriminate Hfired).
    destruct (transformers_analyze a s) as [r|e] eqn:E; simpl;
      intro Hfired; [|discriminate Hfired].
    exact (detect_fired_label a s r
             (transformers_analyze_unadjusted a s E) Hfired).
  - intros a text e Hblank Hraised. cbv zeta. unfold analyze_text. simpl.
    unfold transformers_analyze. rewrite Hblank, Hraised. simpl.
    match goal with
    | |- context [_detect_comparative_sentiment a text ?b] =>
        exact (detect_keeps_label a text b eq_refl)
    end.
  - intros a text raw_label raw_score Hblank Hmodel.
    unfold analyze_text. simpl.
    unfold transformers_analyze. rewrite Hblank, Hmodel. simpl.
    match goal with
    | |- context [_detect_comparative_sentiment a text ?b] =>
        destruct (detect_cases a text b) as [[_ E]|[(_ & _ & E)|(_ & _ & E)]];
          rewrite E; clear E
    end; try (intro Hfired; discriminate Hfired).
    intros _.
    destruct (String.eqb raw_label "POSITIVE") eqn:Epos.
    + apply String.eqb_eq in Epos. subst raw_label. simpl.
      split; [reflexivity|].
      unfold transformers_get_label.
      destruct (gtb raw_score 0.5) eqn:Egt.
      * apply gtb_gt in Egt. split; auto.
      * apply gtb_le in Egt.
        split.
        -- destruct (ltb raw_score (-0.5)); discriminate.
        -- intro Hhigh. exfalso.
           assert (0.5 < raw_score) by (apply Hhigh; auto). qlra.
    + destruct (String.eqb raw_label "NEGATIVE") eqn:Eneg.
      * apply String.eqb_eq in Eneg. subst raw_label. simpl.
        split; [reflexivity|].
        unfold transformers_get_label.
        destruct (gtb (- raw_score) 0.5) eqn:Egt.
        -- apply gtb_gt in Egt.
           split; [discriminate|].
           intro Hhigh. exfalso.
           assert (0.5 < raw_score) by (apply Hhigh; auto). qlra.
        -- destruct (ltb (- raw_score) (-0.5)) eqn:Elt.
           ++ apply ltb_lt in Elt. split; [intros _ _; qlra|reflexivity].
           ++ apply ltb_ge in Elt.
              split; [discriminate|].
              intro Hhigh. exfalso.
              assert (0.5 < raw_score) by (apply Hhigh; auto). qlra.
      * simpl. split; [reflexivity|].
        split; [|reflexivity].
        intros _ [E|E]; subst raw_label; discriminate.
Qed.

(** The amended C1 at work: a Transformers engine on a comparative sentence
    (the adjuster fires), and on a plain one with a confident model. *)
Lemma analyze_text_label_follows_score_witness :
  (let a := constant_pipeline "POSITIVE" 0.9 in
   let r := analyze_text a (PStr "This is better than this one.") in
   label r = get_label a (score r))
  /\ (let a := constant_pipeline "NEGATIVE" 0.9 in
      let r := analyze_text a (PStr "ok") in
      label r = "Negative" /\ label r = get_label a (score r)).
Proof.
  split.
  - apply (proj1 (proj2 (proj2 analyze_text_label_follows_score))).
    reflexivity.
  - destruct (proj2 (proj2 (proj2 (proj2 analyze_text_label_follows_score)))
                (constant_pipeline "NEGATIVE" 0.9) "ok" "NEGATIVE" 0.9
                eq_refl eq_refl eq_refl) as [Hlabel Hiff].
    split; [exact Hlabel|].
    apply Hiff. intros _. reflexivity.
Defined.

(** ** C5: blank texts *)

(** The part of C5 the code keeps: the VADER and the TextBlob scorer answer
    a text of whitespace only with score 0.0, label Neutral, confidence
    0.0. *)
Lemma vader_textblob_blank_text (text : string) :
  (forall c, In c (list_ascii_of_string text) -> is_space c = true) ->
  (forall a : VADERAnalyzer,
      exists r, analyze a text = Returned r
                /\ (score r, label r, confidence r) = (0.0, "Neutral", 0.0))
  /\ (forall a : TextBlobAnalyzer,
         exists r, analyze a text = Returned r
                   /\ (score r, label r, confidence r) = (0.0, "Neutral", 0.0)).
Proof.
  intro Hall. apply whitespace_is_blank in Hall.
  split; intro a; simpl.
  - unfold vader_analyze. rewrite Hall. eexists. split; reflexivity.
  - unfold textblob_analyze. rewrite Hall. eexists. split; reflexivity.
Qed.

(** The other part the code keeps: [analyze_text] returns a result on every
    input.  A scorer that raises, and a text that is not a string, give the
    neutral default. *)
Lemma scorer_failure_is_neutral {A : Type} `{SentimentAnalyzer A} (a : A) :
  (forall (text e : string),
      analyze a text = Raised e ->
      analyze_text a (PStr text) = neutral_result)
  /\ (forall text : pyvalue,
         (forall s, text <> PStr s) -> analyze_text a text = neutral_result).
Proof.
  split.
  - intros text e Hraised. unfold analyze_text. rewrite Hraised. reflexivity.
  - intros text Hother. unfold analyze_text.
    destruct text; try reflexivity.
    contradiction (Hother s). reflexivity.
Qed.

(** C5, where the code departs from it.  The Transformers scorer answers the
    empty text, and a text of spaces, with the label NEUTRAL in capitals, not
    Neutral; no pattern matches such a text, so [analyze_text] returns that
    label as it is. *)
Theorem transformers_blank_text_label (a : TransformersAnalyzer) :
  analyze a ""
  = Returned {| score := 0.0; label := "NEUTRAL"; confidence := 0.0;
                compound := None; details := NoDetails;
                adjusted_for_comparison := false |}
  /\ label (analyze_text a (PStr "")) = "NEUTRAL"
  /\ label (analyze_text a (PStr "   ")) = "NEUTRAL"
  /\ label (analyze_text a (PStr "")) <> "Neutral"
  /\ get_label a (score (analyze_text a (PStr ""))) = "Neutral".
Proof.
  repeat split. discriminate.
Qed.

(** ** C2: the fixed strong-negative score *)

(** C2, as stated, fails on a word of the spec's list.  "This is pathetic"
    matches the pejorative pattern and holds the word "pathetic", yet the
    adjusted score is the base score less 0.4, here -0.9719, not -0.7. *)
Lemma pathetic_is_not_scored_fixed :
  let text := "This is pathetic" in
  let r := analyze_text (constant_vader (-0.5719)) (PStr text) in
  first_match negative_comparative_patterns text <> None
  /\ contains "pathetic" (lower text) = true
  /\ adjusted_for_comparison r = true
  /\ score r == -0.9719
  /\ ~ score r == -0.7.
Proof.
  vm_compute. repeat split; discriminate.
Qed.

(** C2, amended.  The fixed value -0.7 is given to a text that matches a
    negative-signal pattern and whose lower-cased form holds one of
    "rubbish", "nonsense", "garbage", "trash", "crap", "stupid", "idiotic";
    it wins over rules (b), (c) and (d) whatever the base score and the rest
    of the text.  (The other words of the pejorative pattern, "ridiculous",
    "terrible", "awful", "horrible", "disgusting" and "pathetic", only make
    the pattern match.) *)
Theorem pejorative_phrase_scores_fixed
  {A : Type} `{SentimentAnalyzer A} (a : A) (text : string)
  (base : SentimentResult) :
  first_match negative_comparative_patterns text <> None ->
  (exists phrase,
      In phrase ["rubbish"; "nonsense"; "garbage"; "trash"; "crap"; "stupid";
                 "idiotic"]
      /\ contains phrase (lower text) = true) ->
  let r := _detect_comparative_sentiment a text base in
  score r = -0.7
  /\ label r = get_label a (-0.7)
  /\ confidence r = abs (-0.7)
  /\ adjusted_for_comparison r = true.
Proof.
  intros Hmatch (phrase & Hin & Hcontains). cbv zeta.
  destruct (detect_cases a text base) as [[_ E]|[(En & _)|(En & _)]];
    [|contradiction..].
  rewrite E.
  assert (Hany : any_in very_negative_phrases (lower text) = true).
  { unfold any_in. apply existsb_exists. exists phrase. split; assumption. }
  unfold negative_adjustment. rewrite Hany.
  repeat split.
Qed.

(** The amended C2 on "Don't talk rubbish", whatever the lexicon says. *)
Lemma pejorative_phrase_scores_fixed_witness :
  score (_detect_comparative_sentiment (constant_vader 0.3)
           "Don't talk rubbish"
           {| score := 0.3; label := "Positive"; confidence := 0.3;
              compound := Some 0.3; details := NoDetails;
              adjusted_for_comparison := false |})
  = -0.7.
Proof.
  apply (pejorative_phrase_scores_fixed (constant_vader 0.3)
           "Don't talk rubbish").
  - vm_compute. discriminate.
  - exists "rubbish". split; [simpl; auto|reflexivity].
Defined.

(** ** C3: more negative than positive messages *)

Lemma overall_label_negative_majority (scores : list Q)
  (label_counts : LabelCounts) (avg_score : Q) :
  (Negative label_counts > Positive label_counts)%nat ->
  overall_label_of scores label_counts avg_score = "Negative".
Proof.
  intro Hmore. unfold overall_label_of.
  rewrite Z.gtb_ltb, Z.geb_leb.
  replace (Z.of_nat (Positive label_counts)
           <? Z.of_nat (Negative label_counts))%Z with true
    by (symmetry; apply Z.ltb_lt; lia).
  replace (1 <=? Z.of_nat (Negative label_counts)
                 - Z.of_nat (Positive label_counts))%Z with true
    by (symmetry; apply Z.leb_le; lia).
  reflexivity.
Qed.

(** C3.  Rule 1 of the aggregator comes first: when the Negative labels
    outnumber the Positive ones and the difference is at least 1 or some
    score is below -0.3, the overall sentiment is Negative; the second
    condition follows from the first, so the overall sentiment is Negative
    whenever the Negative labels outnumber the Positive ones, whatever the
    scores and their average. *)
Theorem negative_majority_is_negative
  {A : Type} `{SentimentAnalyzer A} (a : A) (messages : list pyvalue) :
  let results := analyze_messages a messages in
  let negative_count := count "Negative" (map label results) in
  let positive_count := count "Positive" (map label results) in
  let summary := analyze_conversation a messages in
  ((negative_count > positive_count)%nat ->
   (Z.of_nat negative_count - Z.of_nat positive_count >= 1)%Z
   \/ (exists s, In s (map score results) /\ s < -0.3) ->
   overall_sentiment summary = "Negative")
  /\ ((negative_count > positive_count)%nat ->
      (Z.of_nat negative_count - Z.of_nat positive_count >= 1)%Z)
  /\ ((negative_count > positive_count)%nat ->
      overall_sentiment summary = "Negative"
      /\ exists neutral_count,
          label_distribution summary
          = Some {| Positive := positive_count; Negative := negative_count;
                    Neutral := neutral_count |}).
Proof.
  cbv zeta.
  assert (Hmain :
    (count "Negative" (map label (analyze_messages a messages))
     > count "Positive" (map label (analyze_messages a messages)))%nat ->
    overall_sentiment (analyze_conversation a messages) = "Negative"
    /\ exists neutral_count,
        label_distribution (analyze_conversation a messages)
        = Some {| Positive :=
                    count "Positive" (map label (analyze_messages a messages));
                  Negative :=
                    count "Negative" (map label (analyze_messages a messages));
                  Neutral := neutral_count |}).
  { intro Hmore. unfold analyze_conversation.
    destruct messages as [|msg rest];
      [unfold count in Hmore; simpl in Hmore; lia|].
    destruct (analyze_messages a (msg :: rest)) as [|r results];
      [unfold count in Hmore; simpl in Hmore; lia|].
    cbn [map overall_sentiment label_distribution].
    split.
    - apply overall_label_negative_majority. exact Hmore.
    - eexists. reflexivity. }
  split; [|split].
  - intros Hmore _. apply Hmain. exact Hmore.
  - intro Hmore. lia.
  - exact Hmain.
Qed.

(** C3 on three messages, two of them labelled Negative by the lexicon. *)
Lemma negative_majority_is_negative_witness :
  overall_sentiment
    (analyze_conversation (constant_vader (-0.2))
       [PStr "late again"; PDict [("text", PStr "still waiting")]; PStr ""])
  = "Negative".
Proof.
  apply (proj2 (proj2 (negative_majority_is_negative (constant_vader (-0.2))
           [PStr "late again"; PDict [("text", PStr "still waiting")];
            PStr ""]))).
  vm_compute. lia.
Defined.

(** ** C4: key moments *)

Import Analyzer.

Lemma index_nth {T} (xs : list T) (i : nat) (d : T) :
  (i < List.length xs)%nat -> index xs i = Returned (nth i xs d).
Proof.
  intro Hi. unfold index.
  rewrite (nth_error_nth' xs d Hi). reflexivity.
Qed.

(** One turn of the loop returns the records of the pair. *)
Lemma key_moments_at_pair (scores : list float) (labels : list string)
  (i : nat) :
  (1 <= i < List.length scores)%nat ->
  (List.length scores <= List.length labels)%nat ->
  key_moments_at scores labels i
  = Returned (Spec.moments_of_pair scores labels i).
Proof.
  intros Hi Hlabels. unfold key_moments_at, Spec.moments_of_pair.
  rewrite (index_nth scores 0%float) by lia.
  rewrite (@index_nth _ scores (i - 1) 0%float) by lia.
  rewrite (@index_nth _ labels (i - 1) "") by lia.
  rewrite (@index_nth _ labels i "") by lia.
  cbn [bind]. unfold Float64.gtb.
  destruct (PrimFloat.ltb 0.3
              (PrimFloat.abs (nth i scores 0 - nth (i - 1) scores 0))%float);
    destruct (PrimFloat.ltb 0.7 (PrimFloat.abs (nth i scores 0%float)));
    reflexivity.
Qed.

Lemma key_moments_loop_pairs (scores : list float) (labels : list string)
  (indices : list nat) :
  (List.length scores <= List.length labels)%nat ->
  (forall i, In i indices -> (1 <= i < List.length scores)%nat) ->
  forall found,
    key_moments_loop scores labels indices found
    = Returned (found ++ flat_map (Spec.moments_of_pair scores labels) indices).
Proof.
  intros Hlabels.
  induction indices as [|i rest IH]; intros Hrange found.
  - simpl. rewrite app_nil_r. reflexivity.
  - cbn [key_moments_loop flat_map].
    rewrite key_moments_at_pair by (auto using in_eq).
    cbn [bind]. rewrite IH by (intros j Hj; apply Hrange; right; exact Hj).
    rewrite app_assoc. reflexivity.
Qed.

Lemma identify_key_moments_pairs (scores : list float)
  (labels : list string) :
  (List.length scores <= List.length labels)%nat ->
  _identify_key_moments scores labels
  = Returned (Spec.key_moments scores labels).
Proof.
  intro Hlabels. unfold _identify_key_moments, Spec.key_moments.
  destruct (List.length scores <? 2)%nat eqn:Eshort.
  - apply Nat.ltb_lt in Eshort.
    destruct (List.length scores) as [|[|n]]; [reflexivity..|lia].
  - apply Nat.ltb_ge in Eshort.
    apply key_moments_loop_pairs; [exact Hlabels|].
    intros i Hi. apply in_seq in Hi. lia.
Qed.

Lemma in_pair_shift (scores : list float) (labels : list string)
  (j idx : nat) (dir : string) (mag f t : float) (fl tl : string) :
  In (significant_shift idx dir mag f t fl tl)
     (Spec.moments_of_pair scores labels j)
  <-> idx = (j + 1)%nat
      /\ PrimFloat.ltb 0.3
           (PrimFloat.abs (nth j scores 0 - nth (j - 1) scores 0))%float
         = true
      /\ dir = (if PrimFloat.ltb (nth (j - 1) scores 0%float)
                     (nth j scores 0%float)
                then "positive" else "negative")
      /\ mag = PrimFloat.abs (nth j scores 0 - nth (j - 1) scores 0)%float
      /\ f = nth (j - 1) scores 0%float
      /\ t = nth j scores 0%float
      /\ fl = nth (j - 1) labels ""
      /\ tl = nth j labels "".
Proof.
  unfold Spec.moments_of_pair. rewrite in_app_iff.
  destruct (PrimFloat.ltb 0.3
              (PrimFloat.abs (nth j scores 0 - nth (j - 1) scores 0))%float).
  - split.
    + intros [[E|[]]|Hext].
      * inversion E; subst. repeat split.
      * destruct (PrimFloat.ltb 0.7 (PrimFloat.abs (nth j scores 0%float)));
          [destruct Hext as [E|[]]; discriminate E|destruct Hext].
    + intros (-> & _ & -> & -> & -> & -> & -> & ->). left. left. reflexivity.
  - split.
    + intros [[]|Hext].
      destruct (PrimFloat.ltb 0.7 (PrimFloat.abs (nth j scores 0%float)));
        [destruct Hext as [E|[]]; discriminate E|destruct Hext].
    + intros (_ & Hbig & _). discriminate Hbig.
Qed.

Lemma in_pair_extreme (scores : list float) (labels : list string)
  (j idx : nat) (sentiment : string) (s : float) :
  In (extreme_sentiment idx sentiment s)
     (Spec.moments_of_pair scores labels j)
  <-> idx = (j + 1)%nat
      /\ PrimFloat.ltb 0.7 (PrimFloat.abs (nth j scores 0%float)) = true
      /\ sentiment = nth j labels ""
      /\ s = nth j scores 0%float.
Proof.
  unfold Spec.moments_of_pair. rewrite in_app_iff.
  split.
  - intros [Hshift|Hext].
    + destruct (PrimFloat.ltb 0.3 _);
        [destruct Hshift as [E|[]]; discriminate E|destruct Hshift].
    + destruct (PrimFloat.ltb 0.7 (PrimFloat.abs (nth j scores 0%float)));
        [|destruct Hext].
      destruct Hext as [E|[]]. inversion E; subst. repeat split.
  - intros (-> & Hbig & -> & ->). right. rewrite Hbig. left. reflexivity.
Qed.

Lemma pair_positions (scores : list float) (labels : list string) (j : nat) :
  StronglySorted lt
    (map Spec.position_of (Spec.moments_of_pair scores labels j))
  /\ forall m, In m (Spec.moments_of_pair scores labels j) ->
               (2 * (j + 1) <= Spec.position_of m <= 2 * (j + 1) + 1)%nat.
Proof.
  unfold Spec.moments_of_pair.
  destruct (PrimFloat.ltb 0.3 _); destruct (PrimFloat.ltb 0.7 _);
    cbn [app map Spec.position_of];
    (split;
     [repeat (apply SSorted_cons || apply SSorted_nil
              || apply Forall_cons || apply Forall_nil); lia
     |intros m Hm;
      repeat (destruct Hm as [<-|Hm]; [cbn [Spec.position_of]; lia|]);
      destruct Hm]).
Qed.

Lemma StronglySorted_lt_app (xs ys : list nat) :
  StronglySorted lt xs ->
  StronglySorted lt ys ->
  (forall x y, In x xs -> In y ys -> (x < y)%nat) ->
  StronglySorted lt (xs ++ ys).
Proof.
  intros Hxs Hys Hcross.
  induction Hxs as [|x xs Hxs IH Hx]; simpl; [exact Hys|].
  constructor.
  - apply IH. intros x' y Hx' Hy. apply Hcross; [right|]; assumption.
  - apply Forall_app. split; [exact Hx|].
    apply Forall_forall. intros y Hy.
    apply Hcross; [left; reflexivity|exact Hy].
Qed.

Lemma pairs_positions (scores : list float) (labels : list string)
  (len start : nat) :
  StronglySorted lt
    (map Spec.position_of
       (flat_map (Spec.moments_of_pair scores labels) (seq start len)))
  /\ forall m,
      In m (flat_map (Spec.moments_of_pair scores labels) (seq start len)) ->
      (2 * (start + 1) <= Spec.position_of m)%nat.
Proof.
  revert start.
  induction len as [|len IH]; intro start; cbn [seq flat_map].
  - split; [constructor|intros m []].
  - destruct (IH (S start)) as [Hsorted Hlow].
    destruct (pair_positions scores labels start) as [Hpair Hbounds].
    split.
    + rewrite map_app. apply StronglySorted_lt_app; [assumption..|].
      intros x y Hx Hy.
      apply in_map_iff in Hx. destruct Hx as (m & <- & Hm).
      apply in_map_iff in Hy. destruct Hy as (m' & <- & Hm').
      specialize (Hbounds m Hm). specialize (Hlow m' Hm'). lia.
    + intros m Hm. apply in_app_iff in Hm. destruct Hm as [Hm|Hm].
      * specialize (Hbounds m Hm). lia.
      * specialize (Hlow m Hm). lia.
Qed.

(** C4.  On at least two scores, with a label for each, key-moment
    detection returns, pair by pair in ascending order, a
    [significant_shift] record at message index [i+1] exactly when
    [abs(scores[i] - scores[i-1]) > 0.3], the difference being the rounded
    binary64 difference the code computes (direction positive iff
    [scores[i] > scores[i-1]], magnitude that absolute difference), and an
    [extreme_sentiment] record at message index [i+1] exactly when
    [abs(scores[i]) > 0.7], the shift ahead of the extreme of the same
    index.  On [0.1, 0.2, -0.6, 0.3, 0.8] it flags a shift at index 3 and an
    extreme at index 5. *)
Theorem identify_key_moments_characterised :
  (forall (scores : list float) (labels : list string),
      (2 <= List.length scores)%nat ->
      (List.length scores <= List.length labels)%nat ->
      exists moments,
        _identify_key_moments scores labels = Returned moments
        /\ moments = Spec.key_moments scores labels
        /\ (forall i dir mag f t fl tl,
               In (significant_shift (i + 1) dir mag f t fl tl) moments
               <-> (1 <= i < List.length scores)%nat
                   /\ PrimFloat.ltb 0.3
                        (PrimFloat.abs
                           (nth i scores 0 - nth (i - 1) scores 0))%float
                      = true
                   /\ dir = (if PrimFloat.ltb (nth (i - 1) scores 0%float)
                                  (nth i scores 0%float)
                             then "positive" else "negative")
                   /\ mag = PrimFloat.abs
                              (nth i scores 0 - nth (i - 1) scores 0)%float
                   /\ f = nth (i - 1) scores 0%float
                   /\ t = nth i scores 0%float
                   /\ fl = nth (i - 1) labels ""
                   /\ tl = nth i labels "")
        /\ (forall i sentiment s,
               In (extreme_sentiment (i + 1) sentiment s) moments
               <-> (1 <= i < List.length scores)%nat
                   /\ PrimFloat.ltb 0.7
                        (PrimFloat.abs (nth i scores 0%float)) = true
                   /\ sentiment = nth i labels ""
                   /\ s = nth i scores 0%float)
        /\ StronglySorted lt (map Spec.position_of moments))
  /\ _identify_key_moments [0.1; 0.2; -0.6; 0.3; 0.8]%float
       ["Neutral"; "Positive"; "Negative"; "Positive"; "Positive"]
     = Returned
         [significant_shift 3 "negative" 0.8 0.2 (-0.6) "Positive" "Negative";
          significant_shift 4 "positive" 0.8999999999999999 (-0.6) 0.3
            "Negative" "Positive";
          significant_shift 5 "positive" 0.5 0.3 0.8 "Positive" "Positive";
          extreme_sentiment 5 "Positive" 0.8]%float.
Proof.
  split; [|vm_compute; reflexivity].
  intros scores labels Hlong Hlabels.
  exists (Spec.key_moments scores labels).
  split; [apply identify_key_moments_pairs; exact Hlabels|].
  split; [reflexivity|].
  unfold Spec.key_moments.
  split; [|split].
  - intros i dir mag f t fl tl. rewrite in_flat_map. split.
    + intros (j & Hj & Hin). apply in_seq in Hj.
      apply in_pair_shift in Hin. destruct Hin as (Hidx & Hrest).
      assert (i = j) by lia. subst j. split; [lia|exact Hrest].
    + intros (Hi & Hrest). exists i. split; [apply in_seq; lia|].
      apply in_pair_shift. split; [reflexivity|exact Hrest].
  - intros i sentiment s. rewrite in_flat_map. split.
    + intros (j & Hj & Hin). apply in_seq in Hj.
      apply in_pair_extreme in Hin. destruct Hin as (Hidx & Hrest).
      assert (i = j) by lia. subst j. split; [lia|exact Hrest].
    + intros (Hi & Hrest). exists i. split; [apply in_seq; lia|].
      apply in_pair_extreme. split; [reflexivity|exact Hrest].
  - apply pairs_positions.
Qed.

(** C4 where rounding decides: the scores 0.1 and 0.4 differ by
    0.30000000000000004 in binary64, which is above 0.3, so the shift is
    flagged. *)
Lemma identify_key_moments_characterised_witness :
  exists moments,
    _identify_key_moments [0.1; 0.4]%float ["Neutral"; "Positive"]
    = Returned moments
    /\ In (significant_shift 2 "positive" 0.30000000000000004 0.1 0.4
             "Neutral" "Positive")%float
          moments.
Proof.
  destruct (proj1 identify_key_moments_characterised
              [0.1; 0.4]%float ["Neutral"; "Positive"])
    as (moments & Hrun & _ & Hshift & _ & _).
  - simpl. lia.
  - simpl. lia.
  - exists moments. split; [exact Hrun|].
    apply (Hshift 1%nat).
    split; [simpl; lia|]. split; [vm_compute; reflexivity|].
    repeat split.
Defined.
(** ** C6: too few scores *)

Lemma determine_trend_sufficient (first_avg second_avg : float) :
  _determine_trend first_avg second_avg <> insufficient_data.
Proof.
  unfold _determine_trend.
  destruct (Float64.gtb (second_avg - first_avg) 0.1); [discriminate|].
  destruct (Float64.gtb (first_avg - second_avg) 0.1); discriminate.
Qed.

(** C6, as stated, fails.  On a single score the result has no
    [key_moments] and no [volatility] entry: neither an empty sequence nor
    the number 0.0 is there to be read. *)
Lemma insufficient_data_lacks_entries :
  analyze_trend [0.5%float] ["Positive"]
  = Returned {| trend := insufficient_data;
                description := "Not enough messages to analyze trend";
                first_half_avg := 0.0%float;
                second_half_avg := 0.0%float;
                progression := [];
                key_moments := None;
                volatility := None |}
  /\ (forall r, analyze_trend [0.5%float] ["Positive"] = Returned r ->
                key_moments r <> Some [] /\ volatility r <> Some 0%float).
Proof.
  split; [reflexivity|].
  intros r E. cbv in E. inversion E. split; discriminate.
Qed.

(** C6, amended.  [analyze_trend] returns [trend = insufficient_data] if
    and only if fewer than 2 scores are supplied.  In that case
    [first_half_avg] and [second_half_avg] are 0.0, [progression] is empty,
    and the result has no [key_moments] and no [volatility] entry (on such
    scores [_identify_key_moments] and [_calculate_volatility] would give the
    empty sequence and 0.0).  With 2 scores or more and a label for each,
    a result with both entries is returned. *)
Theorem analyze_trend_insufficient_data (scores : list float)
  (labels : list string) :
  ((List.length scores < 2)%nat ->
   analyze_trend scores labels
   = Returned {| trend := insufficient_data;
                 description := "Not enough messages to analyze trend";
                 first_half_avg := 0.0%float;
                 second_half_avg := 0.0%float;
                 progression := [];
                 key_moments := None;
                 volatility := None |}
   /\ _identify_key_moments scores labels = Returned []
   /\ _calculate_volatility scores = 0%float)
  /\ ((2 <= List.length scores)%nat ->
      (List.length scores <= List.length labels)%nat ->
      exists r moments,
        analyze_trend scores labels = Returned r
        /\ trend r <> insufficient_data
        /\ key_moments r = Some moments
        /\ volatility r = Some (_calculate_volatility scores))
  /\ (forall r, analyze_trend scores labels = Returned r ->
                (trend r = insufficient_data
                 <-> (List.length scores < 2)%nat)).
Proof.
  unfold analyze_trend, _identify_key_moments, _calculate_volatility.
  destruct (List.length scores <? 2)%nat eqn:Eshort.
  - apply Nat.ltb_lt in Eshort.
    split; [|split].
    + intros _. repeat split.
    + intros Hlong. lia.
    + intros r E. inversion E. simpl. split; auto.
  - apply Nat.ltb_ge in Eshort.
    split; [|split].
    + intro Hshort. lia.
    + intros _ Hlabels.
      pose proof (identify_key_moments_pairs scores labels Hlabels) as Hrun.
      unfold _identify_key_moments in Hrun.
      apply Nat.ltb_ge in Eshort. rewrite Eshort in Hrun.
      rewrite Hrun. cbn [bind].
      eexists. eexists. split; [reflexivity|].
      cbn [trend key_moments volatility].
      split; [apply determine_trend_sufficient|]. split; reflexivity.
    + intros r E.
      destruct (key_moments_loop scores labels
                  (seq 1 (List.length scores - 1)) []) as [moments|e];
        cbn [bind] in E; [|discriminate E].
      inversion E. cbn [trend].
      split.
      * intro Htrend. exfalso.
        exact (determine_trend_sufficient _ _ Htrend).
      * intro Hshort. lia.
Qed.

(** The amended C6 on one score, and on the five scores of the test
    suite. *)
Lemma analyze_trend_insufficient_data_witness :
  (exists r, analyze_trend [0.5%float] ["Positive"] = Returned r
             /\ trend r = insufficient_data
             /\ key_moments r = None)
  /\ (exists r, analyze_trend [-0.5; -0.3; 0.1; 0.3; 0.5]%float
                  ["Negative"; "Negative"; "Neutral"; "Positive"; "Positive"]
                = Returned r
                /\ trend r <> insufficient_data).
Proof.
  split.
  - destruct (proj1 (analyze_trend_insufficient_data [0.5%float]
                       ["Positive"]))
      as (Hrun & _).
    + simpl. lia.
    + eexists. split; [exact Hrun|]. split; reflexivity.
  - destruct (proj1 (proj2 (analyze_trend_insufficient_data
                              [-0.5; -0.3; 0.1; 0.3; 0.5]%float
                              ["Negative"; "Negative"; "Neutral"; "Positive";
                               "Positive"])))
      as (r & moments & Hrun & Htrend & _).
    + simpl. lia.
    + simpl. lia.
    + exists r. split; assumption.
Defined.

(** ** C7: applying the adjustment again *)

Lemma clamp_cases (x : Q) :
  (x <= -1 /\ clamp x == -1)
  \/ (-1 < x < 1 /\ clamp x = x)
  \/ (1 <= x /\ clamp x == 1).
Proof.
  unfold clamp, max, min. compare_floats;
    first [ solve [left; split; [qlra|first [reflexivity|qlra]]]
          | solve [right; left; split; [qlra|reflexivity]]
          | solve [right; right; split; [qlra|first [reflexivity|qlra]]]
          | exfalso; qlra ].
Qed.

Lemma clamp_bounds (x : Q) : -1 <= clamp x <= 1.
Proof.
  destruct (clamp_cases x) as [[_ E]|[[Hx E]|[_ E]]]; rewrite E; qlra.
Qed.

Lemma negative_adjustment_fixed (text_lower : string) (o1 o2 : Q) :
  any_in very_negative_phrases text_lower = true
  \/ any_in not_find_phrases text_lower = true ->
  negative_adjustment text_lower o1 = negative_adjustment text_lower o2.
Proof.
  unfold negative_adjustment.
  intros [Hvery|Hfind].
  - rewrite Hvery. reflexivity.
  - rewrite Hfind. destruct (any_in very_negative_phrases text_lower);
      reflexivity.
Qed.

Lemma negative_adjustment_relative (text_lower : string) (o : Q) :
  any_in very_negative_phrases text_lower = false ->
  any_in not_find_phrases text_lower = false ->
  negative_adjustment text_lower o <= -0.4
  /\ (o <= 0 -> negative_adjustment text_lower o = o - 0.4).
Proof.
  intros Hvery Hfind. unfold negative_adjustment. rewrite Hvery, Hfind.
  unfold abs. pose proof (Qabs_nonneg o). compare_floats.
  - split; [qlra|intro; exfalso; qlra].
  - split; [qlra|reflexivity].
Qed.

Lemma positive_adjustment_relative (o : Q) :
  0.2 <= positive_adjustment o
  /\ (0 <= o -> positive_adjustment o = o + 0.2).
Proof.
  unfold positive_adjustment, abs. pose proof (Qabs_nonneg o).
  compare_floats.
  - split; [qlra|intro; exfalso; qlra].
  - split; [qlra|reflexivity].
Qed.

Section Readjusting.

Context {A : Type} `{SentimentAnalyzer A}.
Variable a : A.
Variable text : string.
Variable base : SentimentResult.

Let once := _detect_comparative_sentiment a text base.
Let twice := _detect_comparative_sentiment a text once.

(** A fixed value is written again. *)
Lemma readjusted_fixed :
  first_match negative_comparative_patterns text <> None ->
  any_in very_negative_phrases (lower text)
  || any_in not_find_phrases (lower text) = true ->
  Sentiment.score twice = Sentiment.score once.
Proof.
  subst twice once.
  intros Hneg Hfixed. apply orb_true_iff in Hfixed.
  destruct (detect_cases a text base) as [[_ E]|[(En & _)|(En & _)]];
    [|contradiction..].
  rewrite E.
  destruct (detect_cases a text (store_adjusted a base
              (clamp (negative_adjustment (lower text)
                        (Sentiment.score base)))))
    as [[_ E']|[(En & _)|(En & _)]]; [|contradiction..].
  rewrite E'. cbn [Sentiment.score store_adjusted].
  f_equal. apply negative_adjustment_fixed. exact Hfixed.
Qed.

(** Rules (c) and (d): a further 0.4 is taken off, down to -1. *)
Lemma readjusted_negative :
  first_match negative_comparative_patterns text <> None ->
  any_in very_negative_phrases (lower text)
  || any_in not_find_phrases (lower text) = false ->
  -1 <= Sentiment.score once <= -0.4
  /\ (-1 < Sentiment.score once - 0.4 ->
      Sentiment.score twice = Sentiment.score once - 0.4)
  /\ (Sentiment.score once - 0.4 <= -1 -> Sentiment.score twice == -1).
Proof.
  subst twice once.
  intros Hneg Hfixed. apply orb_false_iff in Hfixed.
  destruct Hfixed as [Hvery Hfind].
  destruct (detect_cases a text base) as [[_ E]|[(En & _)|(En & _)]];
    [|contradiction..].
  rewrite E.
  destruct (detect_cases a text (store_adjusted a base
              (clamp (negative_adjustment (lower text)
                        (Sentiment.score base)))))
    as [[_ E']|[(En & _)|(En & _)]]; [|contradiction..].
  rewrite E'. cbn [Sentiment.score store_adjusted].
  destruct (negative_adjustment_relative (lower text)
              (Sentiment.score base) Hvery Hfind) as [Hlow _].
  set (first_score := negative_adjustment (lower text)
                        (Sentiment.score base)) in *.
  assert (Honce : clamp first_score <= -0.4).
  { destruct (clamp_cases first_score)
      as [[_ Ec]|[[_ Ec]|[Hc _]]]; [rewrite Ec; qlra|rewrite Ec; qlra|qlra]. }
  destruct (negative_adjustment_relative (lower text) (clamp first_score)
              Hvery Hfind) as [_ Hagain].
  rewrite Hagain by qlra.
  split; [split; [apply clamp_bounds|exact Honce]|].
  destruct (clamp_cases (clamp first_score - 0.4))
    as [[Hc Ec]|[[Hc Ec]|[Hc Ec]]].
  - split; [intro; exfalso; qlra|intros _; exact Ec].
  - split; [intros _; exact Ec|intro; exfalso; qlra].
  - exfalso. qlra.
Qed.

(** The positive rule: a further 0.2 is added, up to 1. *)
Lemma readjusted_positive :
  first_match negative_comparative_patterns text = None ->
  first_match positive_comparative_patterns text <> None ->
  0.2 <= Sentiment.score once <= 1
  /\ (Sentiment.score once + 0.2 < 1 ->
      Sentiment.score twice = Sentiment.score once + 0.2)
  /\ (1 <= Sentiment.score once + 0.2 -> Sentiment.score twice == 1).
Proof.
  subst twice once.
  intros Hneg Hpos.
  destruct (detect_cases a text base)
    as [[Hn _]|[(_ & _ & E)|(_ & Hp & _)]]; [contradiction| |contradiction].
  rewrite E.
  destruct (detect_cases a text (store_adjusted a base
              (clamp (positive_adjustment (Sentiment.score base)))))
    as [[Hn _]|[(_ & _ & E')|(_ & Hp & _)]];
    [contradiction| |contradiction].
  rewrite E'. cbn [Sentiment.score store_adjusted].
  destruct (positive_adjustment_relative (Sentiment.score base))
    as [Hhigh _].
  set (first_score := positive_adjustment (Sentiment.score base)) in *.
  assert (Honce : 0.2 <= clamp first_score).
  { destruct (clamp_cases first_score)
      as [[Hc _]|[[_ Ec]|[_ Ec]]]; [qlra|rewrite Ec; qlra|rewrite Ec; qlra]. }
  destruct (positive_adjustment_relative (clamp first_score))
    as [_ Hagain].
  rewrite Hagain by qlra.
  split; [split; [exact Honce|apply clamp_bounds]|].
  destruct (clamp_cases (clamp first_score + 0.2))
    as [[Hc Ec]|[[Hc Ec]|[Hc Ec]]].
  - exfalso. qlra.
  - split; [intros _; exact Ec|intro; exfalso; qlra].
  - split; [intro; exfalso; qlra|intros _; exact Ec].
Qed.

Lemma readjusted_unmatched :
  first_match negative_comparative_patterns text = None ->
  first_match positive_comparative_patterns text = None ->
  twice = once /\ once = base.
Proof.
  subst twice once.
  intros Hneg Hpos.
  destruct (detect_cases a text base)
    as [[Hn _]|[(_ & Hp & _)|(_ & _ & E)]]; [contradiction..|].
  rewrite E, E. split; reflexivity.
Qed.

End Readjusting.

(** The store: reading what was allocated and what was assigned. *)
Lemma read_allocated (objects : Objects.store) (d : SentimentResult) :
  Objects.read (objects ++ [d]) (List.length objects) = Some d.
Proof.
  unfold Objects.read. rewrite nth_error_app2 by lia.
  rewrite Nat.sub_diag. reflexivity.
Qed.

Lemma read_older (objects : Objects.store) (d : SentimentResult)
  (r : Objects.reference) :
  (r < List.length objects)%nat ->
  Objects.read (objects ++ [d]) r = Objects.read objects r.
Proof.
  intro Hr. unfold Objects.read. apply nth_error_app1. exact Hr.
Qed.

Lemma assign_newest (objects : Objects.store) (d d' : SentimentResult) :
  Objects.assign (objects ++ [d]) (List.length objects) d' = objects ++ [d'].
Proof.
  induction objects as [|x objects IH]; [reflexivity|].
  cbn [app List.length Objects.assign]. rewrite IH. reflexivity.
Qed.

Section Calls.

Context {A : Type} `{SentimentAnalyzer A}.
Variable a : A.

(** A call adds one object, the result, and touches no other. *)
Lemma analyze_text_allocates (objects : Objects.store) (input : pyvalue) :
  Objects.analyze_text a objects input
  = (objects ++ [analyze_text a input], List.length objects).
Proof.
  unfold Objects.analyze_text, analyze_text, try_except.
  destruct input as [| | | |text| |]; try reflexivity.
  unfold Objects.analyze.
  destruct (analyze a text) as [d|e]; cbn [bind Objects.allocate];
    [|reflexivity].
  unfold Objects._detect_comparative_sentiment.
  rewrite read_allocated, assign_newest. reflexivity.
Qed.

(** The adjuster handed the reference a call returned overwrites the
    object of that call. *)
Lemma readjusting_overwrites (objects : Objects.store) (text : string) :
  Objects._detect_comparative_sentiment a
    (objects ++ [analyze_text a (PStr text)]) text (List.length objects)
  = (objects ++ [_detect_comparative_sentiment a text
                   (analyze_text a (PStr text))],
     List.length objects).
Proof.
  unfold Objects._detect_comparative_sentiment.
  rewrite read_allocated, assign_newest. reflexivity.
Qed.

End Calls.

(** C7, as stated, fails.  For "This is better than this one." with the
    lexicon's 0.4404 the analysis gives -0.8404; the adjustment step applied
    to that result, for the same text, gives -1.0: a second penalty. *)
Lemma readjusting_penalises_again :
  let a := constant_vader 0.4404 in
  let text := "This is better than this one." in
  let once := analyze_text a (PStr text) in
  let twice := _detect_comparative_sentiment a text once in
  Sentiment.score once == -0.8404
  /\ Sentiment.score twice == -1
  /\ ~ Sentiment.score twice == Sentiment.score once.
Proof.
  vm_compute. repeat split; discriminate.
Qed.

(** C7, amended.  With a scorer that answers alike on the same text, two
    calls of [analyze_text] on the same input return two distinct result
    objects with the same content, the second call leaving the object of the
    first as it is: each call adjusts, once, a dictionary the scorer has
    just built.  The adjustment step handed a result it has
    already adjusted, for the same text, writes to that very object; the
    score stays as it is exactly where the rule writes a fixed value (a
    pejorative phrase, a "find" phrase), where no pattern matches, and
    where the score already sits at the bound of the clamp (-1 under rules
    (c) and (d), 1 under the positive rule).  Everywhere else rules (c) and
    (d) take a further 0.4 off, down to -1, and the positive rule adds a
    further 0.2, up to 1. *)
Theorem adjustment_applied_again
  {A : Type} `{SentimentAnalyzer A} (a : A) (text : string)
  (base : SentimentResult) :
  let once := _detect_comparative_sentiment a text base in
  let twice := _detect_comparative_sentiment a text once in
  let negative := first_match negative_comparative_patterns text in
  let positive := first_match positive_comparative_patterns text in
  let fixed :=
    any_in very_negative_phrases (lower text)
    || any_in not_find_phrases (lower text) in
  (forall (objects : Objects.store) (input : pyvalue),
      let (objects1, first) := Objects.analyze_text a objects input in
      let (objects2, second) := Objects.analyze_text a objects1 input in
      first <> second
      /\ Objects.read objects1 first = Some (analyze_text a input)
      /\ Objects.read objects2 first = Some (analyze_text a input)
      /\ Objects.read objects2 second = Some (analyze_text a input)
      /\ (forall r, (r < List.length objects)%nat ->
                    Objects.read objects2 r = Objects.read objects r))
  /\ (forall objects : Objects.store,
         let (objects1, first) :=
           Objects.analyze_text a objects (PStr text) in
         let (objects2, again) :=
           Objects._detect_comparative_sentiment a objects1 text first in
         again = first
         /\ Objects.read objects2 first
            = Some (_detect_comparative_sentiment a text
                      (analyze_text a (PStr text))))
  /\ (Sentiment.score twice == Sentiment.score once
      <-> (negative <> None /\ fixed = true)
          \/ (negative = None /\ positive = None)
          \/ (negative <> None /\ fixed = false
              /\ Sentiment.score once == -1)
          \/ (negative = None /\ positive <> None
              /\ Sentiment.score once == 1))
  /\ (negative <> None -> fixed = true ->
      Sentiment.score twice = Sentiment.score once)
  /\ (negative = None -> positive = None -> twice = once /\ once = base)
  /\ (negative <> None -> fixed = false ->
      -1 <= Sentiment.score once <= -0.4
      /\ (-1 < Sentiment.score once - 0.4 ->
          Sentiment.score twice = Sentiment.score once - 0.4)
      /\ (Sentiment.score once - 0.4 <= -1 -> Sentiment.score twice == -1))
  /\ (negative = None -> positive <> None ->
      0.2 <= Sentiment.score once <= 1
      /\ (Sentiment.score once + 0.2 < 1 ->
          Sentiment.score twice = Sentiment.score once + 0.2)
      /\ (1 <= Sentiment.score once + 0.2 -> Sentiment.score twice == 1)).
Proof.
  cbv zeta.
  split; [|split; [|split; [|split; [|split; [|split]]]]].
  - intros objects input. rewrite !analyze_text_allocates.
    rewrite length_app. cbn [List.length].
    split; [lia|]. split; [apply read_allocated|].
    split; [rewrite read_older by (rewrite length_app; simpl; lia);
            apply read_allocated|].
    split.
    + replace (List.length objects + 1)%nat
        with (List.length (objects ++ [analyze_text a input]))
        by (rewrite length_app; reflexivity).
      apply read_allocated.
    + intros r Hr.
      rewrite read_older by (rewrite length_app; simpl; lia).
      apply read_older. exact Hr.
  - intro objects. rewrite analyze_text_allocates, readjusting_overwrites.
    split; [reflexivity|apply read_allocated].
  - destruct (first_match negative_comparative_patterns text) as [m|] eqn:En.
    + assert (Hneg : first_match negative_comparative_patterns text <> None)
        by (rewrite En; discriminate).
      destruct (any_in very_negative_phrases (lower text)
                || any_in not_find_phrases (lower text)) eqn:Efixed.
      * split; [intros _; left; split; [discriminate|reflexivity]|].
        intros _. rewrite (readjusted_fixed a text base Hneg Efixed).
        reflexivity.
      * destruct (readjusted_negative a text base Hneg Efixed)
          as (Honce & Hstep & Hbound).
        split.
        -- intro Hsame. right. right. left.
           split; [discriminate|]. split; [reflexivity|].
           destruct (Qlt_le_dec (-1)
                       (Sentiment.score
                          (_detect_comparative_sentiment a text base) - 0.4))
             as [Hinside|Houtside].
           ++ rewrite (Hstep Hinside) in Hsame. exfalso. qlra.
           ++ rewrite (Hbound Houtside) in Hsame. symmetry. exact Hsame.
        -- intros [[_ Hf]|[[Hn _]|[(_ & _ & Hsat)|(Hn & _)]]];
             try discriminate.
           rewrite Hbound by (rewrite Hsat; qlra).
           symmetry. exact Hsat.
    + destruct (first_match positive_comparative_patterns text) as [m|] eqn:Ep.
      * assert (Hpos : first_match positive_comparative_patterns text <> None)
          by (rewrite Ep; discriminate).
        destruct (readjusted_positive a text base En Hpos)
          as (Honce & Hstep & Hbound).
        split.
        -- intro Hsame. right. right. right.
           split; [reflexivity|]. split; [discriminate|].
           destruct (Qlt_le_dec
                       (Sentiment.score
                          (_detect_comparative_sentiment a text base) + 0.2)
                       1)
             as [Hinside|Houtside].
           ++ rewrite (Hstep Hinside) in Hsame. exfalso. qlra.
           ++ rewrite (Hbound Houtside) in Hsame. symmetry. exact Hsame.
        -- intros [[Hn _]|[[_ Hp]|[(Hn & _)|(_ & _ & Hsat)]]];
             try discriminate; try (exfalso; apply Hn; reflexivity).
           rewrite Hbound by (rewrite Hsat; qlra).
           symmetry. exact Hsat.
      * split; [intros _; right; left; split; reflexivity|].
        intros _.
        destruct (readjusted_unmatched a text base En Ep) as [Hsame _].
        rewrite Hsame. reflexivity.
  - apply readjusted_fixed.
  - apply readjusted_unmatched.
  - apply readjusted_negative.
  - apply readjusted_positive.
Qed.

(** The amended C7 where the clamp has been reached: with a base score of
    0.7, "This is better than this one." is scored -1, and -1 again when
    the adjustment is applied to that result. *)
Lemma adjustment_applied_again_witness :
  let a := constant_vader 0.7 in
  let text := "This is better than this one." in
  let base :=
    {| Sentiment.score := 0.7; Sentiment.label := "Positive";
       confidence := 0.7; compound := Some 0.7;
       details := VaderDetails 0 1 0;
       adjusted_for_comparison := false |} in
  let once := _detect_comparative_sentiment a text base in
  let twice := _detect_comparative_sentiment a text once in
  Sentiment.score once == -1
  /\ Sentiment.score twice == Sentiment.score once.
Proof.
  intros a text base once twice.
  assert (Honce : Sentiment.score once == -1)
    by (vm_compute; reflexivity).
  split; [exact Honce|].
  pose proof (adjustment_applied_again a text base) as Hagain.
  cbv zeta in Hagain.
  destruct Hagain as (_ & _ & Hsame & _).
  apply Hsame. right. right. left.
  split; [vm_compute; discriminate|].
  split; [vm_compute; reflexivity|exact Honce].
Defined.
(** ** C8: volatility *)













(** ** C9: elements that are not messages *)

Lemma dict_get_none (key : string) (entries : list (string * pyvalue)) :
  dict_get key entries = None
  <-> existsb (fun entry => String.eqb (fst entry) key) entries = false.
Proof.
  induction entries as [|[k v] rest IH]; simpl; [tauto|].
  rewrite (String.eqb_sym k key).
  destruct (String.eqb key k); simpl; [split; discriminate|exact IH].
Qed.

Lemma message_text_none (msg : pyvalue) :
  message_text msg = None <-> is_message msg = false.
Proof.
  destruct msg; simpl; try tauto.
  - split; discriminate.
  - apply dict_get_none.
Qed.

Lemma analyze_messages_filter {A : Type} `{SentimentAnalyzer A} (a : A)
  (messages : list pyvalue) :
  analyze_messages a messages
  = analyze_messages a (filter is_message messages).
Proof.
  induction messages as [|msg rest IH]; [reflexivity|].
  cbn [analyze_messages filter].
  destruct (message_text msg) as [text|] eqn:Etext.
  - assert (Hmsg : is_message msg = true).
    { destruct (is_message msg) eqn:E; [reflexivity|].
      apply message_text_none in E. congruence. }
    rewrite Hmsg. cbn [analyze_messages]. rewrite Etext, IH. reflexivity.
  - apply message_text_none in Etext. rewrite Etext. exact IH.
Qed.

(** C9.  [analyze_conversation] passes over every element that is neither
    a string nor a dictionary with a ['text'] key: the result is that of the
    remaining elements.  A non-empty list of such elements only gives
    Neutral, average 0.0, 0 messages and the reasoning "No valid messages to
    analyze", which is not the reasoning "No messages to analyze" of the
    empty list. *)
Theorem invalid_messages_are_skipped
  {A : Type} `{SentimentAnalyzer A} (a : A) (messages : list pyvalue) :
  (filter is_message messages <> [] ->
   analyze_conversation a messages
   = analyze_conversation a (filter is_message messages))
  /\ (messages <> [] -> filter is_message messages = [] ->
      analyze_conversation a messages
      = {| overall_sentiment := "Neutral";
           average_score := 0.0;
           total_messages := 0;
           label_distribution := None;
           reasoning := "No valid messages to analyze";
           scores := None;
           labels := None |})
  /\ analyze_conversation a []
     = {| overall_sentiment := "Neutral";
          average_score := 0.0;
          total_messages := 0;
          label_distribution := None;
          reasoning := "No messages to analyze";
          scores := None;
          labels := None |}
  /\ "No valid messages to analyze" <> "No messages to analyze".
Proof.
  split; [|split; [|split]].
  - intro Hsome. unfold analyze_conversation.
    rewrite <- (analyze_messages_filter a messages).
    destruct messages as [|msg rest]; [contradiction Hsome; reflexivity|].
    destruct (filter is_message (msg :: rest)); [contradiction Hsome|];
      reflexivity.
  - intros Hmessages Hnone. unfold analyze_conversation.
    destruct messages as [|msg rest]; [contradiction Hmessages; reflexivity|].
    rewrite (analyze_messages_filter a (msg :: rest)), Hnone. reflexivity.
  - reflexivity.
  - discriminate.
Qed.

(** C9 on a list without a single message, and on one with two. *)
Lemma invalid_messages_are_skipped_witness :
  reasoning
    (analyze_conversation (constant_vader 0.5)
       [PNone; PInt 3; PDict [("body", PStr "hello")]; PList [PStr "hi"]])
  = "No valid messages to analyze"
  /\ analyze_conversation (constant_vader 0.5)
       [PNone; PStr "fine"; PDict [("body", PStr "hello")];
        PDict [("text", PStr "good")]]
     = analyze_conversation (constant_vader 0.5)
         [PStr "fine"; PDict [("text", PStr "good")]].
Proof.
  split.
  - rewrite (proj1 (proj2 (invalid_messages_are_skipped (constant_vader 0.5)
               [PNone; PInt 3; PDict [("body", PStr "hello")];
                PList [PStr "hi"]]))).
    + reflexivity.
    + discriminate.
    + reflexivity.
  - apply (proj1 (invalid_messages_are_skipped (constant_vader 0.5)
             [PNone; PStr "fine"; PDict [("body", PStr "hello")];
              PDict [("text", PStr "good")]])).
    discriminate.
Defined.

(** ** C10: the insight sentences *)

(** C10.  [summarize_insights] returns between 1 and 4 strings.  The first
    is the sentence for the trend, the one for a stable trend also standing
    for [insufficient_data]; the sentence counting the shifts, the sentence on
    the distribution and the sentence on the volatility follow in that
    order, each at most once.  Without a [volatility] entry the default 0.0
    is read, and the low-volatility sentence closes the list. *)
Theorem summarize_insights_shape (trend_analysis : TrendAnalysis)
  (overall_sentiment : ConversationSummary) :
  let insights := summarize_insights trend_analysis overall_sentiment in
  (1 <= List.length insights <= 4)%nat
  /\ (exists shifts distribution volatility_part,
         insights
         = (match trend trend_analysis with
            | improving => "Conversation mood improved over time"
            | declining => "Conversation mood declined over time"
            | stable | insufficient_data =>
                "Sentiment remained relatively consistent"
            end)
             :: shifts ++ distribution ++ volatility_part
         /\ (List.length shifts <= 1)%nat
         /\ (forall s, In s shifts ->
                       exists n, (0 < n)%nat
                                 /\ s = ("Detected " ++ str_nat n
                                         ++ " significant sentiment shift(s)")%string)
         /\ (List.length distribution <= 1)%nat
         /\ (distribution = [] <-> label_distribution overall_sentiment = None)
         /\ (List.length volatility_part <= 1)%nat
         /\ (forall s, In s volatility_part ->
                       s = "High sentiment volatility - mood changed frequently"
                       \/ s = "Low sentiment volatility - consistent emotional tone"))
  /\ (volatility trend_analysis = None ->
      exists front,
        insights
        = front ++ ["Low sentiment volatility - consistent emotional tone"]).
Proof.
  cbv zeta. unfold summarize_insights. cbn [app].
  set (first := trend_insight (trend trend_analysis)).
  set (shifts := shift_insight (key_moments trend_analysis)).
  set (distribution :=
         distribution_insight (label_distribution overall_sentiment)).
  set (volatility_part := volatility_insight (volatility trend_analysis)).
  assert (Hshifts :
    (List.length shifts <= 1)%nat
    /\ forall s, In s shifts ->
                 exists n, (0 < n)%nat
                           /\ s = ("Detected " ++ str_nat n
                                   ++ " significant sentiment shift(s)")%string).
  { subst shifts. unfold shift_insight.
    destruct (key_moments trend_analysis) as [[|m moments]|];
      [split; [simpl; lia|intros s []]| |split; [simpl; lia|intros s []]].
    destruct (filter is_significant_shift (m :: moments)) as [|m' found].
    - split; [simpl; lia|intros s []].
    - split; [simpl; lia|].
      intros s [<-|[]]. eexists. split; [|reflexivity]. simpl. lia. }
  assert (Hdistribution :
    (List.length distribution <= 1)%nat
    /\ (distribution = [] <-> label_distribution overall_sentiment = None)).
  { subst distribution. unfold distribution_insight.
    destruct (label_distribution overall_sentiment) as [dist|];
      [|split; [simpl; lia|tauto]].
    destruct (Sentiment.Negative dist <? Sentiment.Positive dist)%nat;
      [|destruct (Sentiment.Positive dist <? Sentiment.Negative dist)%nat];
      (split; [simpl; lia|split; discriminate]). }
  assert (Hvolatility :
    (List.length volatility_part <= 1)%nat
    /\ forall s, In s volatility_part ->
                 s = "High sentiment volatility - mood changed frequently"
                 \/ s = "Low sentiment volatility - consistent emotional tone").
  { subst volatility_part. unfold volatility_insight.
    destruct (Float64.gtb _ 0.3); [|destruct (PrimFloat.ltb _ 0.1)];
      (split; [simpl; lia|]); intros s Hs;
      repeat (destruct Hs as [<-|Hs]; [tauto|]); destruct Hs. }
  destruct Hshifts as [Hs1 Hs2].
  destruct Hdistribution as [Hd1 Hd2].
  destruct Hvolatility as [Hv1 Hv2].
  split; [|split].
  - clearbody first shifts distribution volatility_part.
    simpl. rewrite !length_app. lia.
  - exists shifts, distribution, volatility_part.
    split.
    + rewrite <- app_assoc. subst first. unfold trend_insight.
      destruct (trend trend_analysis); reflexivity.
    + repeat split; try assumption; apply Hd2.
  - intro Hnone. exists (first :: shifts ++ distribution).
    subst volatility_part. rewrite Hnone. reflexivity.
Qed.

(** C10 on the result for a single score and an empty conversation: two
    sentences, the low-volatility one last. *)
Lemma summarize_insights_shape_witness :
  exists front,
    summarize_insights
      {| trend := insufficient_data;
         description := "Not enough messages to analyze trend";
         first_half_avg := 0.0%float;
         second_half_avg := 0.0%float;
         progression := [];
         key_moments := None;
         volatility := None |}
      {| overall_sentiment := "Neutral";
         average_score := 0.0;
         total_messages := 0;
         label_distribution := None;
         reasoning := "No messages to analyze";
         scores := None;
         labels := None |}
    = front ++ ["Low sentiment volatility - consistent emotional tone"].
Proof.
  apply (proj2 (proj2 (summarize_insights_shape _ _))).
  reflexivity.
Defined.


(* ===================================================================== *)
(** * Further properties of src/sentiment.py *)
(* ===================================================================== *)

(** Case analysis on every [<=] test of floats in sight. *)
Ltac compare_floats_le :=
  unfold geb, leb in *;
  repeat match goal with
    | |- context [Qle_bool ?x ?y] =>
        let E := fresh "E" in
        destruct (Qle_bool x y) eqn:E;
        [apply Qle_bool_iff in E
        |assert (y < x)
           by (let Hc := fresh "Hc" in
               apply Qnot_le_lt; intro Hc; apply Qle_bool_iff in Hc;
               congruence);
         clear E]
    end.

(** ** Thresholds *)

(** X1.  Each [get_label] is monotone in the score (a higher score never
    gets a lower label), mirrors under negation, and returns one of the three
    labels. *)
Theorem get_label_monotone_and_symmetric :
  forall get : Q -> string,
    get = vader_get_label \/ get = textblob_get_label
    \/ get = transformers_get_label ->
    forall s1 s2 : Q,
      s1 <= s2 ->
      (get s1 = "Positive" -> get s2 = "Positive")
      /\ (get s2 = "Negative" -> get s1 = "Negative")
      /\ (get (- s1) = "Positive" <-> get s1 = "Negative")
      /\ (get (- s1) = "Neutral" <-> get s1 = "Neutral")
      /\ (get s1 = "Positive" \/ get s1 = "Negative" \/ get s1 = "Neutral").
Proof.
  intros get [->|[->| ->]] s1 s2 Hle.
  - unfold vader_get_label. compare_floats_le;
      repeat split; intros; try discriminate; try tauto; try reflexivity;
      exfalso; qlra.
  - unfold textblob_get_label. compare_floats;
      repeat split; intros; try discriminate; try tauto; try reflexivity;
      exfalso; qlra.
  - unfold transformers_get_label. compare_floats;
      repeat split; intros; try discriminate; try tauto; try reflexivity;
      exfalso; qlra.
Qed.

Lemma get_label_monotone_and_symmetric_witness :
  vader_get_label (-0.5) = "Negative".
Proof.
  assert (Hle : -0.5 <= -0.05) by (vm_compute; discriminate).
  destruct (@get_label_monotone_and_symmetric vader_get_label
              (or_introl eq_refl) (-0.5) (-0.05) Hle) as (_ & Hdown & _).
  apply Hdown. reflexivity.
Defined.

(** ** The adjusted score *)

Lemma clamp_monotone_low (x b : Q) : x <= b -> -1 <= b -> clamp x <= b.
Proof.
  intros Hx Hb.
  destruct (clamp_cases x) as [[_ E]|[[H E]|[H E]]]; rewrite E; qlra.
Qed.

Lemma clamp_monotone_high (x b : Q) : b <= x -> b <= 1 -> b <= clamp x.
Proof.
  intros Hx Hb.
  destruct (clamp_cases x) as [[H E]|[[H E]|[_ E]]]; rewrite E; qlra.
Qed.

Lemma negative_adjustment_upper (text_lower : string) (o : Q) :
  negative_adjustment text_lower o <= -0.4.
Proof.
  destruct (any_in very_negative_phrases text_lower) eqn:Hvery;
    [unfold negative_adjustment; rewrite Hvery; qlra|].
  destruct (any_in not_find_phrases text_lower) eqn:Hfind.
  - unfold negative_adjustment. rewrite Hvery, Hfind.
    destruct (any_in find_adjectives text_lower); qlra.
  - apply negative_adjustment_relative; assumption.
Qed.

(** X2.  Whenever a pattern matches, the score the adjuster stores lies in
    [-1, 1] whatever the base score was, the confidence is its absolute
    value, between 0 and 1, and ['compound'] holds the same score. *)
Theorem adjusted_score_is_clamped
  {A : Type} `{SentimentAnalyzer A} (a : A) (text : string)
  (base : SentimentResult) :
  first_match negative_comparative_patterns text <> None
  \/ first_match positive_comparative_patterns text <> None ->
  let r := _detect_comparative_sentiment a text base in
  -1 <= Sentiment.score r <= 1
  /\ confidence r = Qabs (Sentiment.score r)
  /\ 0 <= confidence r <= 1
  /\ compound r = Some (Sentiment.score r)
  /\ adjusted_for_comparison r = true.
Proof.
  intro Hmatch. cbv zeta.
  assert (Hstored : forall x,
             let r := store_adjusted a base (clamp x) in
             -1 <= Sentiment.score r <= 1
             /\ confidence r = Qabs (Sentiment.score r)
             /\ 0 <= confidence r <= 1
             /\ compound r = Some (Sentiment.score r)
             /\ adjusted_for_comparison r = true).
  { intro x. cbn. pose proof (clamp_bounds x) as [Hlow Hhigh].
    repeat split; try assumption.
    - apply Qabs_nonneg.
    - unfold abs. apply Qabs_Qle_condition. split; assumption. }
  destruct (detect_cases a text base) as [[_ E]|[(_ & _ & E)|(En & Ep & _)]].
  - rewrite E. apply Hstored.
  - rewrite E. apply Hstored.
  - destruct Hmatch; contradiction.
Qed.

Lemma adjusted_score_is_clamped_witness :
  let r := _detect_comparative_sentiment (constant_vader 5)
             "It used to be better"
             {| Sentiment.score := 5; Sentiment.label := "Positive";
                confidence := 5; compound := Some 5; details := NoDetails;
                adjusted_for_comparison := false |} in
  -1 <= Sentiment.score r <= 1.
Proof.
  assert (Hmatch :
    first_match negative_comparative_patterns "It used to be better" <> None
    \/ first_match positive_comparative_patterns "It used to be better"
       <> None)
    by (left; vm_compute; discriminate).
  intro r.
  exact (proj1 (adjusted_score_is_clamped (constant_vader 5)
                  "It used to be better" _ Hmatch)).
Defined.

(** X3.  A text that matches a negative-signal pattern is scored -0.4 or
    lower, whatever the base score and whatever positive-signal pattern
    matches as well; with the VADER and the TextBlob thresholds its label is
    Negative, and so is the label [analyze_text] returns once the scorer has
    answered. *)
Theorem negative_pattern_gives_negative (text : string) :
  first_match negative_comparative_patterns text <> None ->
  (forall (A : Type) (inst : SentimentAnalyzer A) (a : A)
          (base : SentimentResult),
      -1 <= Sentiment.score (_detect_comparative_sentiment a text base)
      <= -0.4)
  /\ (forall (a : VADERAnalyzer) (base : SentimentResult),
         analyze a text = Returned base ->
         Sentiment.label (analyze_text a (PStr text)) = "Negative")
  /\ (forall (a : TextBlobAnalyzer) (base : SentimentResult),
         analyze a text = Returned base ->
         Sentiment.label (analyze_text a (PStr text)) = "Negative").
Proof.
  intro Hmatch.
  assert (Hscore : forall (A : Type) (inst : SentimentAnalyzer A) (a : A)
                          (base : SentimentResult),
             _detect_comparative_sentiment a text base
             = store_adjusted a base
                 (clamp (negative_adjustment (lower text)
                           (Sentiment.score base)))
             /\ -1 <= clamp (negative_adjustment (lower text)
                               (Sentiment.score base)) <= -0.4).
  { intros A inst a base.
    destruct (detect_cases a text base) as [[_ E]|[(En & _)|(En & _)]];
      [|contradiction..].
    split; [exact E|]. split; [apply clamp_bounds|].
    apply clamp_monotone_low; [apply negative_adjustment_upper|qlra]. }
  split; [|split].
  - intros A inst a base. destruct (Hscore A inst a base) as [E Hrange].
    rewrite E. exact Hrange.
  - intros a base Hbase. unfold analyze_text. rewrite Hbase. cbn [bind try_except].
    destruct (Hscore _ _ a base) as [E [_ Hhigh]]. rewrite E.
    cbn [Sentiment.label store_adjusted get_label VADER_SentimentAnalyzer].
    unfold vader_get_label. compare_floats_le; [exfalso; qlra|reflexivity|exfalso; qlra].
  - intros a base Hbase. unfold analyze_text. rewrite Hbase. cbn [bind try_except].
    destruct (Hscore _ _ a base) as [E [_ Hhigh]]. rewrite E.
    cbn [Sentiment.label store_adjusted get_label TextBlob_SentimentAnalyzer].
    unfold textblob_get_label. compare_floats; [exfalso; qlra|reflexivity|exfalso; qlra].
Qed.

Lemma negative_pattern_gives_negative_witness :
  Sentiment.label
    (analyze_text (constant_vader 0.4404)
       (PStr "This is better than this one."))
  = "Negative".
Proof.
  destruct (@negative_pattern_gives_negative "This is better than this one.")
    as (_ & Hvader & _).
  - vm_compute. discriminate.
  - eapply Hvader. reflexivity.
Defined.

(** X4.  A text that matches a positive-signal pattern and no
    negative-signal pattern is scored 0.2 or higher, whatever the base score;
    with the VADER and the TextBlob thresholds its label is Positive once the
    scorer has answered. *)
Theorem positive_pattern_gives_positive (text : string) :
  first_match negative_comparative_patterns text = None ->
  first_match positive_comparative_patterns text <> None ->
  (forall (A : Type) (inst : SentimentAnalyzer A) (a : A)
          (base : SentimentResult),
      0.2 <= Sentiment.score (_detect_comparative_sentiment a text base) <= 1)
  /\ (forall (a : VADERAnalyzer) (base : SentimentResult),
         analyze a text = Returned base ->
         Sentiment.label (analyze_text a (PStr text)) = "Positive")
  /\ (forall (a : TextBlobAnalyzer) (base : SentimentResult),
         analyze a text = Returned base ->
         Sentiment.label (analyze_text a (PStr text)) = "Positive").
Proof.
  intros Hneg Hpos.
  assert (Hscore : forall (A : Type) (inst : SentimentAnalyzer A) (a : A)
                          (base : SentimentResult),
             _detect_comparative_sentiment a text base
             = store_adjusted a base
                 (clamp (positive_adjustment (Sentiment.score base)))
             /\ 0.2 <= clamp (positive_adjustment (Sentiment.score base))
                <= 1).
  { intros A inst a base.
    destruct (detect_cases a text base)
      as [[Hn _]|[(_ & _ & E)|(_ & Hp & _)]]; [contradiction| |contradiction].
    split; [exact E|]. split; [|apply clamp_bounds].
    apply clamp_monotone_high; [apply positive_adjustment_relative|qlra]. }
  split; [|split].
  - intros A inst a base. destruct (Hscore A inst a base) as [E Hrange].
    rewrite E. exact Hrange.
  - intros a base Hbase. unfold analyze_text. rewrite Hbase.
    cbn [bind try_except].
    destruct (Hscore _ _ a base) as [E [Hlow _]]. rewrite E.
    cbn [Sentiment.label store_adjusted get_label VADER_SentimentAnalyzer].
    unfold vader_get_label. compare_floats_le; [reflexivity|exfalso; qlra..].
  - intros a base Hbase. unfold analyze_text. rewrite Hbase.
    cbn [bind try_except].
    destruct (Hscore _ _ a base) as [E [Hlow _]]. rewrite E.
    cbn [Sentiment.label store_adjusted get_label TextBlob_SentimentAnalyzer].
    unfold textblob_get_label. compare_floats; [reflexivity|exfalso; qlra..].
Qed.

Lemma positive_pattern_gives_positive_witness :
  Sentiment.label
    (analyze_text (constant_vader (-0.3)) (PStr "It is better than before"))
  = "Positive".
Proof.
  destruct (@positive_pattern_gives_positive "It is better than before")
    as (_ & Hvader & _).
  - reflexivity.
  - vm_compute. discriminate.
  - eapply Hvader. reflexivity.
Defined.

(** X5.  With the Transformers thresholds a complaint can come out Neutral:
    a text that matches a negative-signal pattern through a "didn't find"
    phrase, without a pejorative phrase and without one of the five
    adjectives of the phrase rule, is scored -0.4, which [get_label] of that
    scorer puts in the Neutral band; the VADER and TextBlob scorers label the
    same score Negative. *)
Theorem find_phrase_is_neutral_for_transformers (text : string)
  (base : SentimentResult) :
  first_match negative_comparative_patterns text <> None ->
  any_in very_negative_phrases (lower text) = false ->
  any_in not_find_phrases (lower text) = true ->
  any_in find_adjectives (lower text) = false ->
  (forall a : TransformersAnalyzer,
      let r := _detect_comparative_sentiment a text base in
      Sentiment.score r = -0.4 /\ Sentiment.label r = "Neutral"
      /\ adjusted_for_comparison r = true)
  /\ (forall a : VADERAnalyzer,
         Sentiment.label (_detect_comparative_sentiment a text base)
         = "Negative")
  /\ (forall a : TextBlobAnalyzer,
         Sentiment.label (_detect_comparative_sentiment a text base)
         = "Negative").
Proof.
  intros Hmatch Hvery Hfind Hadj.
  assert (Hscore : forall (A : Type) (inst : SentimentAnalyzer A) (a : A),
             _detect_comparative_sentiment a text base
             = store_adjusted a base (-0.4)).
  { intros A inst a.
    destruct (detect_cases a text base) as [[_ E]|[(En & _)|(En & _)]];
      [|contradiction..].
    rewrite E. unfold negative_adjustment. rewrite Hvery, Hfind, Hadj.
    reflexivity. }
  split; [|split]; intro a; cbv zeta; rewrite Hscore; repeat split.
Qed.

Lemma find_phrase_is_neutral_for_transformers_witness :
  let text := "I didn't find it nice" in
  let base :=
    {| Sentiment.score := 0.9; Sentiment.label := "Positive";
       confidence := 0.9; compound := None;
       details := TransformersDetails "POSITIVE" 0.9;
       adjusted_for_comparison := false |} in
  Sentiment.label
    (_detect_comparative_sentiment (constant_pipeline "POSITIVE" 0.9) text
       base)
  = "Neutral".
Proof.
  intros text base.
  assert (Hmatch : first_match negative_comparative_patterns text <> None)
    by (vm_compute; discriminate).
  assert (Hvery : any_in very_negative_phrases (lower text) = false)
    by (vm_compute; reflexivity).
  assert (Hfind : any_in not_find_phrases (lower text) = true)
    by (vm_compute; reflexivity).
  assert (Hadjective : any_in find_adjectives (lower text) = false)
    by (vm_compute; reflexivity).
  destruct (@find_phrase_is_neutral_for_transformers text base
              Hmatch Hvery Hfind Hadjective) as (Htransformers & _).
  exact (proj1 (proj2 (Htransformers (constant_pipeline "POSITIVE" 0.9)))).
Defined.

(** ** The aggregator *)

Lemma analyze_messages_length {A : Type} `{SentimentAnalyzer A} (a : A)
  (messages : list pyvalue) :
  List.length (analyze_messages a messages)
  = List.length (filter is_message messages).
Proof.
  induction messages as [|msg rest IH]; [reflexivity|].
  cbn [analyze_messages filter].
  destruct (message_text msg) as [text|] eqn:Etext.
  - assert (Hmsg : is_message msg = true).
    { destruct (is_message msg) eqn:E; [reflexivity|].
      apply message_text_none in E. congruence. }
    rewrite Hmsg. cbn [List.length]. rewrite IH. reflexivity.
  - apply message_text_none in Etext. rewrite Etext. exact IH.
Qed.

(** The two shapes of a summary. *)
Lemma conversation_summary_cases {A : Type} `{SentimentAnalyzer A} (a : A)
  (messages : list pyvalue) :
  let results := analyze_messages a messages in
  let summary := analyze_conversation a messages in
  (results = [] /\ label_distribution summary = None
   /\ overall_sentiment summary = "Neutral"
   /\ average_score summary = 0.0 /\ total_messages summary = 0%nat
   /\ Sentiment.scores summary = None /\ Sentiment.labels summary = None)
  \/ (results <> []
      /\ summary
         = let scores := map Sentiment.score results in
           let labels := map Sentiment.label results in
           let avg_score := Py.sum scores / len scores in
           let label_counts :=
             {| Positive := count "Positive" labels;
                Negative := count "Negative" labels;
                Neutral := count "Neutral" labels |} in
           {| overall_sentiment :=
                overall_label_of scores label_counts avg_score;
              average_score := avg_score;
              total_messages := List.length labels;
              label_distribution := Some label_counts;
              reasoning :=
                _generate_reasoning avg_score label_counts
                  (List.length labels)
                  (overall_label_of scores label_counts avg_score);
              Sentiment.scores := Some scores;
              Sentiment.labels := Some labels |}).
Proof.
  cbv zeta. unfold analyze_conversation.
  destruct messages as [|msg rest]; [left; repeat split|].
  destruct (analyze_messages a (msg :: rest)) as [|r results];
    [left; repeat split|].
  right. split; [discriminate|reflexivity].
Qed.

Lemma count_le_length (x : string) (xs : list string) :
  (count x xs <= List.length xs)%nat.
Proof. unfold count. apply filter_length_le. Qed.

Lemma count_three (xs : list string) :
  (count "Positive" xs + count "Negative" xs + count "Neutral" xs
   <= List.length xs)%nat
  /\ ((forall x, In x xs ->
                 x = "Positive" \/ x = "Negative" \/ x = "Neutral") ->
      (count "Positive" xs + count "Negative" xs + count "Neutral" xs
       = List.length xs)%nat).
Proof.
  unfold count.
  induction xs as [|x xs [IHle IHeq]]; [split; reflexivity|].
  cbn [filter List.length].
  destruct (String.eqb "Positive" x) eqn:Ep;
    destruct (String.eqb "Negative" x) eqn:En;
    destruct (String.eqb "Neutral" x) eqn:Eu;
    try (apply String.eqb_eq in Ep); try (apply String.eqb_eq in En);
    try (apply String.eqb_eq in Eu); subst; try discriminate;
    cbn [List.length]; (split; [lia|]); intro Hall;
    try (rewrite <- IHeq by (intros y Hy; apply Hall; right; exact Hy); lia).
  exfalso.
  destruct (Hall x (or_introl eq_refl)) as [E|[E|E]]; subst x;
    discriminate.
Qed.

Lemma in_analyze_messages {A : Type} `{SentimentAnalyzer A} (a : A)
  (messages : list pyvalue) (r : SentimentResult) :
  In r (analyze_messages a messages) -> exists text, r = analyze_text a text.
Proof.
  induction messages as [|msg rest IH]; [intros []|].
  cbn [analyze_messages].
  destruct (message_text msg) as [text|]; [|exact IH].
  intros [<-|Hin]; [exists text; reflexivity|exact (IH Hin)].
Qed.

Lemma vader_textblob_labels :
  (forall (a : VADERAnalyzer) (text : pyvalue),
      let l := Sentiment.label (analyze_text a text) in
      l = "Positive" \/ l = "Negative" \/ l = "Neutral")
  /\ (forall (a : TextBlobAnalyzer) (text : pyvalue),
         let l := Sentiment.label (analyze_text a text) in
         l = "Positive" \/ l = "Negative" \/ l = "Neutral").
Proof.
  split; intros a text; cbv zeta.
  - assert (Hzero : get_label a 0.0 = "Neutral") by reflexivity.
    rewrite (analyze_text_label_generic a Hzero (vader_analyze_label a) text).
    cbn [get_label VADER_SentimentAnalyzer]. unfold vader_get_label.
    destruct (geb _ _); [tauto|]. destruct (leb _ _); tauto.
  - assert (Hzero : get_label a 0.0 = "Neutral") by reflexivity.
    rewrite (analyze_text_label_generic a Hzero (textblob_analyze_label a)
               text).
    cbn [get_label TextBlob_SentimentAnalyzer]. unfold textblob_get_label.
    destruct (gtb _ _); [tauto|]. destruct (ltb _ _); tauto.
Qed.

Lemma conversation_counts_generic
  {A : Type} `{SentimentAnalyzer A} (a : A) (messages : list pyvalue) :
  filter is_message messages <> [] ->
  let summary := analyze_conversation a messages in
  exists d ss ls,
    label_distribution summary = Some d
    /\ Sentiment.scores summary = Some ss
    /\ Sentiment.labels summary = Some ls
    /\ total_messages summary = List.length (filter is_message messages)
    /\ List.length ss = total_messages summary
    /\ List.length ls = total_messages summary
    /\ (Positive d + Negative d + Neutral d <= total_messages summary)%nat
    /\ ((forall r, In r (analyze_messages a messages) ->
                   Sentiment.label r = "Positive"
                   \/ Sentiment.label r = "Negative"
                   \/ Sentiment.label r = "Neutral") ->
        (Positive d + Negative d + Neutral d = total_messages summary)%nat).
Proof.
  intro Hsome. cbv zeta.
  destruct (conversation_summary_cases a messages)
    as [(Hnone & _)|(_ & E)].
  - exfalso. apply Hsome. apply length_zero_iff_nil.
    rewrite <- (analyze_messages_length a), Hnone. reflexivity.
  - rewrite E. cbv zeta.
    cbn [label_distribution Sentiment.scores Sentiment.labels total_messages
         Positive Negative Neutral].
    eexists. eexists. eexists.
    repeat split; try reflexivity.
    + rewrite length_map. apply analyze_messages_length.
    + rewrite !length_map. reflexivity.
    + apply count_three.
    + intro Hall. apply count_three.
      intros x Hx. apply in_map_iff in Hx. destruct Hx as (r & <- & Hr).
      exact (Hall r Hr).
Qed.

(** X6.  When at least one element is a message, [total_messages] is the
    number of elements that are messages, there is one score and one label
    per message, and the three counts of [label_distribution] add up to at
    most [total_messages]; with a VADER or a TextBlob scorer they add up to
    it exactly. *)
Theorem conversation_counts (messages : list pyvalue) :
  filter is_message messages <> [] ->
  (forall (A : Type) (inst : SentimentAnalyzer A) (a : A),
      let summary := analyze_conversation a messages in
      exists d ss ls,
        label_distribution summary = Some d
        /\ Sentiment.scores summary = Some ss
        /\ Sentiment.labels summary = Some ls
        /\ total_messages summary = List.length (filter is_message messages)
        /\ List.length ss = total_messages summary
        /\ List.length ls = total_messages summary
        /\ (Positive d + Negative d + Neutral d
            <= total_messages summary)%nat)
  /\ (forall a : VADERAnalyzer,
         let summary := analyze_conversation a messages in
         exists d,
           label_distribution summary = Some d
           /\ (Positive d + Negative d + Neutral d
               = total_messages summary)%nat)
  /\ (forall a : TextBlobAnalyzer,
         let summary := analyze_conversation a messages in
         exists d,
           label_distribution summary = Some d
           /\ (Positive d + Negative d + Neutral d
               = total_messages summary)%nat).
Proof.
  intro Hsome. split; [|split].
  - intros A inst a.
    destruct (conversation_counts_generic a messages Hsome)
      as (d & ss & ls & Hd & Hss & Hls & Ht & Hlss & Hlls & Hle & _).
    exists d, ss, ls. repeat split; assumption.
  - intros a.
    destruct (conversation_counts_generic a messages Hsome)
      as (d & ss & ls & Hd & _ & _ & _ & _ & _ & _ & Heq).
    exists d. split; [exact Hd|]. apply Heq.
    intros r Hr. apply in_analyze_messages in Hr. destruct Hr as [text ->].
    apply (proj1 vader_textblob_labels).
  - intros a.
    destruct (conversation_counts_generic a messages Hsome)
      as (d & ss & ls & Hd & _ & _ & _ & _ & _ & _ & Heq).
    exists d. split; [exact Hd|]. apply Heq.
    intros r Hr. apply in_analyze_messages in Hr. destruct Hr as [text ->].
    apply (proj2 vader_textblob_labels).
Qed.

Lemma conversation_counts_witness :
  let summary :=
    analyze_conversation (constant_vader 0.5)
      [PStr "fine"; PNone; PDict [("text", PStr "")]] in
  exists d,
    label_distribution summary = Some d
    /\ (Positive d + Negative d + Neutral d = total_messages summary)%nat.
Proof.
  apply (proj1 (proj2 (@conversation_counts
                         [PStr "fine"; PNone; PDict [("text", PStr "")]]
                         ltac:(discriminate)))).
Defined.

Lemma len_cons {T} (x : T) (xs : list T) : len (x :: xs) == len xs + 1.
Proof.
  unfold len. cbn [List.length]. rewrite Nat2Z.inj_succ.
  unfold Z.succ. rewrite inject_Z_plus. reflexivity.
Qed.

Lemma len_positive {T} (xs : list T) : xs <> [] -> 0 < len xs.
Proof.
  intro Hxs. destruct xs as [|x xs]; [congruence|].
  unfold len, Qlt. simpl. lia.
Qed.

Lemma fold_sum_bounds (lo hi : Q) (xs : list Q) :
  Forall (fun x => lo <= x <= hi) xs ->
  forall acc,
    acc + lo * len xs <= fold_left Qplus xs acc <= acc + hi * len xs.
Proof.
  induction 1 as [|x xs [Hlo Hhi] _ IH]; intro acc.
  - unfold len. simpl. split; ring_simplify; apply Qle_refl.
  - cbn [fold_left]. specialize (IH (acc + x)).
    rewrite len_cons. destruct IH as [IHlo IHhi].
    split; [eapply Qle_trans; [|exact IHlo]|eapply Qle_trans; [exact IHhi|]];
      ring_simplify; qlra.
Qed.

(** The mean of a non-empty list lies between the bounds of its elements. *)
Lemma mean_bounds (lo hi : Q) (xs : list Q) :
  xs <> [] ->
  Forall (fun x => lo <= x <= hi) xs ->
  lo <= Py.sum xs / len xs <= hi.
Proof.
  intros Hxs Hall.
  pose proof (len_positive Hxs) as Hlen.
  destruct (fold_sum_bounds Hall 0) as [Hlo Hhi].
  fold (Py.sum xs) in Hlo, Hhi.
  split.
  - apply Qle_shift_div_l; [exact Hlen|]. qlra.
  - apply Qle_shift_div_r; [exact Hlen|]. qlra.
Qed.

Lemma analyze_text_score_range {A : Type} `{SentimentAnalyzer A} (a : A) :
  (forall text r, analyze a text = Returned r ->
                  -1 <= Sentiment.score r <= 1) ->
  forall text : pyvalue, -1 <= Sentiment.score (analyze_text a text) <= 1.
Proof.
  intros Hscorer text. unfold analyze_text.
  destruct text; cbn [try_except]; try (cbn; split; discriminate).
  destruct (analyze a s) as [r|e] eqn:E; cbn [bind try_except];
    [|cbn; split; discriminate].
  destruct (detect_cases a s r) as [[_ E']|[(_ & _ & E')|(_ & _ & E')]];
    rewrite E'; [apply clamp_bounds..|exact (Hscorer s r E)].
Qed.

(** X7.  With a scorer whose scores lie in [-1, 1], every score of the
    summary and the average score lie in [-1, 1], whatever the messages. *)
Theorem average_score_in_range
  {A : Type} `{SentimentAnalyzer A} (a : A) (messages : list pyvalue) :
  (forall text r, analyze a text = Returned r ->
                  -1 <= Sentiment.score r <= 1) ->
  let summary := analyze_conversation a messages in
  -1 <= average_score summary <= 1
  /\ (forall ss, Sentiment.scores summary = Some ss ->
                 Forall (fun s => -1 <= s <= 1) ss).
Proof.
  intro Hscorer. cbv zeta.
  assert (Hall : Forall (fun s => -1 <= s <= 1)
                   (map Sentiment.score (analyze_messages a messages))).
  { apply Forall_forall. intros s Hs.
    apply in_map_iff in Hs. destruct Hs as (r & <- & Hr).
    apply in_analyze_messages in Hr. destruct Hr as [text ->].
    apply analyze_text_score_range. exact Hscorer. }
  destruct (conversation_summary_cases a messages)
    as [(_ & _ & _ & Havg & _ & Hss & _)|(Hsome & E)].
  - rewrite Havg, Hss. split; [split; discriminate|discriminate].
  - rewrite E. cbv zeta. cbn [average_score Sentiment.scores].
    split.
    + apply mean_bounds; [|exact Hall].
      destruct (analyze_messages a messages); [congruence|discriminate].
    + intros ss Ess. inversion Ess. subst ss. exact Hall.
Qed.

Lemma average_score_in_range_witness :
  -1 <= average_score
          (analyze_conversation (constant_vader (-0.9))
             [PStr "This is pathetic"; PStr "quite bad"])
  <= 1.
Proof.
  apply (average_score_in_range (constant_vader (-0.9))).
  intros text r. cbn. unfold vader_analyze.
  destruct (is_blank text); intro E; inversion E; cbn; split; discriminate.
Defined.

Lemma filter_nonempty {T} (f : T -> bool) (xs : list T) :
  (exists x, In x xs /\ f x = true) ->
  (Z.of_nat (List.length (filter f xs)) >? 0)%Z = true.
Proof.
  intros (x & Hin & Hfx).
  assert (Hx : In x (filter f xs)) by (apply filter_In; split; assumption).
  destruct (filter f xs); [destruct Hx|].
  cbn [List.length]. rewrite Z.gtb_ltb. apply Z.ltb_lt. lia.
Qed.

(** The summary of a conversation with messages, by its fields. *)
Lemma summary_with_distribution {A : Type} `{SentimentAnalyzer A} (a : A)
  (messages : list pyvalue) (d : LabelCounts) :
  let summary := analyze_conversation a messages in
  label_distribution summary = Some d ->
  exists ss,
    Sentiment.scores summary = Some ss
    /\ overall_sentiment summary
       = overall_label_of ss d (average_score summary)
    /\ reasoning summary
       = _generate_reasoning (average_score summary) d
           (total_messages summary) (overall_sentiment summary).
Proof.
  cbv zeta. intro Hd.
  destruct (conversation_summary_cases a messages)
    as [(_ & Hnone & _)|(_ & E)]; [congruence|].
  rewrite E in *. cbv zeta in *. cbn in Hd. inversion Hd. subst d.
  eexists. repeat split.
Qed.

(** X8.  When the Positive labels outnumber the Negative ones by 2 or more,
    or by 1 with some score above 0.3, the overall sentiment is Positive,
    whatever the average score and however low the other scores are. *)
Theorem positive_majority_is_positive
  {A : Type} `{SentimentAnalyzer A} (a : A) (messages : list pyvalue)
  (d : LabelCounts) (ss : list Q) :
  let summary := analyze_conversation a messages in
  label_distribution summary = Some d ->
  Sentiment.scores summary = Some ss ->
  (Positive d >= Negative d + 2)%nat
  \/ ((Positive d > Negative d)%nat /\ exists s, In s ss /\ 0.3 < s) ->
  overall_sentiment summary = "Positive".
Proof.
  cbv zeta. intros Hd Hss Hmore.
  destruct (summary_with_distribution a messages Hd) as (ss' & Hss' & E & _).
  rewrite Hss in Hss'. inversion Hss'. subst ss'. rewrite E.
  unfold overall_label_of.
  rewrite !Z.gtb_ltb, !Z.geb_leb.
  replace (Z.of_nat (Positive d) <? Z.of_nat (Negative d))%Z with false
    by (symmetry; apply Z.ltb_ge; destruct Hmore as [?|[? _]]; lia).
  replace (Z.of_nat (Negative d) <? Z.of_nat (Positive d))%Z with true
    by (symmetry; apply Z.ltb_lt; destruct Hmore as [?|[? _]]; lia).
  cbn [andb].
  destruct (2 <=? Z.of_nat (Positive d) - Z.of_nat (Negative d))%Z eqn:Etwo;
    [reflexivity|].
  apply Z.leb_gt in Etwo.
  destruct Hmore as [Htwo|[Hone (s & Hin & Hs)]]; [lia|].
  replace (Z.of_nat (Positive d) <=? Z.of_nat (Negative d))%Z with false
    by (symmetry; apply Z.leb_gt; lia).
  rewrite andb_false_r.
  rewrite <- Z.gtb_ltb.
  rewrite (@filter_nonempty _ (fun score => gtb score 0.3) ss)
    by (exists s; split; [exact Hin|apply gtb_gt; exact Hs]).
  reflexivity.
Qed.

Lemma positive_majority_is_positive_witness :
  overall_sentiment
    (analyze_conversation (constant_vader 0.5)
       [PStr "fine"; PStr "fair enough"; PStr "worse than before"])
  = "Positive".
Proof.
  apply (@positive_majority_is_positive _ _ (constant_vader 0.5)
           [PStr "fine"; PStr "fair enough"; PStr "worse than before"]
           {| Positive := 2; Negative := 1; Neutral := 0 |}
           [0.5; 0.5; -0.90]).
  - vm_compute. reflexivity.
  - vm_compute. reflexivity.
  - right. split; [vm_compute; lia|].
    exists 0.5. split; [left; reflexivity|]. vm_compute. reflexivity.
Defined.

(** X9.  A tie is broken towards Negative: with as many Negative as
    Positive labels and some score below -0.3, the overall sentiment is
    Negative, even when other scores are above 0.3 and the average is
    positive. *)
Theorem tie_with_strong_negative_is_negative
  {A : Type} `{SentimentAnalyzer A} (a : A) (messages : list pyvalue)
  (d : LabelCounts) (ss : list Q) :
  let summary := analyze_conversation a messages in
  label_distribution summary = Some d ->
  Sentiment.scores summary = Some ss ->
  Positive d = Negative d ->
  (exists s, In s ss /\ s < -0.3) ->
  overall_sentiment summary = "Negative".
Proof.
  cbv zeta. intros Hd Hss Htie (s & Hin & Hs).
  destruct (summary_with_distribution a messages Hd) as (ss' & Hss' & E & _).
  rewrite Hss in Hss'. inversion Hss'. subst ss'. rewrite E.
  unfold overall_label_of.
  rewrite (@filter_nonempty _ (fun score => ltb score (-0.3)) ss)
    by (exists s; split; [exact Hin|apply ltb_lt; exact Hs]).
  rewrite Htie, !Z.gtb_ltb, !Z.geb_leb, Z.ltb_irrefl, Z.leb_refl.
  cbn [andb orb].
  replace (2 <=? Z.of_nat (Negative d) - Z.of_nat (Negative d))%Z with false
    by (symmetry; apply Z.leb_gt; lia).
  reflexivity.
Qed.

Lemma tie_with_strong_negative_is_negative_witness :
  let summary :=
    analyze_conversation (constant_vader 0.9)
      [PStr "lovely"; PStr "I didn't find it nice"] in
  overall_sentiment summary = "Negative" /\ 0 < average_score summary.
Proof.
  split.
  - eapply (tie_with_strong_negative_is_negative (constant_vader 0.9)).
    + reflexivity.
    + reflexivity.
    + reflexivity.
    + exists (-0.4). split; [vm_compute; auto|]. vm_compute. reflexivity.
  - vm_compute. reflexivity.
Defined.

(** X10.  An overall sentiment of Positive is never reported against a
    Negative majority, so its reasoning is always one of two sentences: the
    "Generally positive" one when Positive labels are in the majority, the
    "Mixed ... positive tone" one on a tie.  The third Positive sentence of
    [_generate_reasoning], which quotes the average score, is never
    produced. *)
Theorem positive_reasoning_sentences
  {A : Type} `{SentimentAnalyzer A} (a : A) (messages : list pyvalue)
  (d : LabelCounts) :
  let summary := analyze_conversation a messages in
  label_distribution summary = Some d ->
  overall_sentiment summary = "Positive" ->
  (Negative d <= Positive d)%nat
  /\ reasoning summary
     = if (Negative d <? Positive d)%nat then
         ("Generally positive conversation with " ++ str_nat (Positive d)
            ++ "/" ++ str_nat (total_messages summary)
            ++ " positive messages. User expressed satisfaction or positive feedback.")%string
       else
         ("Mixed conversation with positive tone. Equal positive and negative messages ("
            ++ str_nat (Positive d)
            ++ " each), but overall sentiment is positive.")%string.
Proof.
  cbv zeta. intros Hd Hpositive.
  destruct (summary_with_distribution a messages Hd) as (ss & _ & E & Er).
  assert (Hle : (Negative d <= Positive d)%nat).
  { destruct (le_lt_dec (Negative d) (Positive d)) as [Hle|Hgt];
      [exact Hle|].
    rewrite (overall_label_negative_majority ss d _ Hgt) in E.
    rewrite E in Hpositive. discriminate. }
  split; [exact Hle|].
  rewrite Er, Hpositive. unfold _generate_reasoning. cbn [String.eqb Ascii.eqb Bool.eqb andb].
  destruct (Negative d <? Positive d)%nat eqn:Elt; [reflexivity|].
  apply Nat.ltb_ge in Elt.
  replace (Positive d =? Negative d)%nat with true
    by (symmetry; apply Nat.eqb_eq; lia).
  reflexivity.
Qed.

Lemma positive_reasoning_sentences_witness :
  reasoning
    (analyze_conversation (constant_vader 0.5)
       [PStr "fine"; PStr "fair enough"; PStr "worse than before"])
  = "Generally positive conversation with 2/3 positive messages. User expressed satisfaction or positive feedback.".
Proof.
  apply (positive_reasoning_sentences (constant_vader 0.5)
           [PStr "fine"; PStr "fair enough"; PStr "worse than before"]
           (d := {| Positive := 2; Negative := 1; Neutral := 0 |})).
  - reflexivity.
  - reflexivity.
Defined.

(** ** A model call that fails *)

(** X11.  A failure of the Transformers model call is caught inside the
    scorer, and the neutral dictionary the scorer returns then goes through
    the adjuster like any other result.  On a text that matches a
    negative-signal pattern and holds a pejorative phrase, [analyze_text]
    therefore answers Negative, -0.7, not the neutral default; the neutral
    default comes out when no pattern matches. *)
Theorem failed_model_call_is_adjusted (a : TransformersAnalyzer)
  (text e : string) :
  is_blank text = false ->
  pipeline a text = Raised e ->
  analyze a text = Returned neutral_result
  /\ analyze_text a (PStr text)
     = _detect_comparative_sentiment a text neutral_result
  /\ (first_match negative_comparative_patterns text <> None ->
      any_in very_negative_phrases (lower text) = true ->
      let r := analyze_text a (PStr text) in
      Sentiment.score r = -0.7
      /\ Sentiment.label r = "Negative"
      /\ adjusted_for_comparison r = true)
  /\ (first_match negative_comparative_patterns text = None ->
      first_match positive_comparative_patterns text = None ->
      analyze_text a (PStr text) = neutral_result).
Proof.
  intros Hblank Hfails.
  assert (Hanalyze : analyze a text = Returned neutral_result).
  { cbn [analyze Transformers_SentimentAnalyzer].
    unfold transformers_analyze. rewrite Hblank, Hfails. reflexivity. }
  assert (Hrun : analyze_text a (PStr text)
                 = _detect_comparative_sentiment a text neutral_result).
  { unfold analyze_text. rewrite Hanalyze. reflexivity. }
  split; [exact Hanalyze|]. split; [exact Hrun|]. split.
  - intros Hmatch Hvery. cbv zeta. rewrite Hrun.
    destruct (detect_cases a text neutral_result)
      as [[_ E]|[(En & _)|(En & _)]]; [|contradiction..].
    rewrite E. unfold negative_adjustment. rewrite Hvery.
    repeat split.
  - intros Hneg Hpos. rewrite Hrun.
    destruct (detect_cases a text neutral_result)
      as [[Hn _]|[(_ & Hp & _)|(_ & _ & E)]]; [contradiction..|exact E].
Qed.

Lemma failed_model_call_is_adjusted_witness :
  Sentiment.label (analyze_text failing_pipeline (PStr "This is rubbish"))
  = "Negative".
Proof.
  assert (Hblank : is_blank "This is rubbish" = false)
    by (vm_compute; reflexivity).
  assert (Hfails : pipeline failing_pipeline "This is rubbish"
                   = Raised "RuntimeError") by reflexivity.
  assert (Hmatch : first_match negative_comparative_patterns
                     "This is rubbish" <> None)
    by (vm_compute; discriminate).
  assert (Hvery : any_in very_negative_phrases (lower "This is rubbish")
                  = true)
    by (vm_compute; reflexivity).
  destruct (@failed_model_call_is_adjusted failing_pipeline _ _ Hblank
              Hfails)
    as (_ & _ & Hadjusted & _).
  exact (proj1 (proj2 (Hadjusted Hmatch Hvery))).
Defined.
(* ===================================================================== *)
(** * Further properties of src/analyzer.py *)
(* ===================================================================== *)

(** ** Progression *)

Lemma nth_error_combine {T U} (xs : list T) (ys : list U) (k : nat) :
  nth_error (combine xs ys) k
  = match nth_error xs k, nth_error ys k with
    | Some x, Some y => Some (x, y)
    | _, _ => None
    end.
Proof.
  revert ys k. induction xs as [|x xs IH]; intros ys k.
  - destruct k; reflexivity.
  - destruct ys as [|y ys].
    + destruct k; cbn; [reflexivity|]. destruct (nth_error xs k); reflexivity.
    + destruct k; cbn; [reflexivity|]. apply IH.
Qed.

Lemma nth_error_seq (start len k : nat) :
  nth_error (seq start len) k
  = if (k <? len)%nat then Some (start + k)%nat else None.
Proof.
  revert start k. induction len as [|len IH]; intros start k.
  - destruct k; reflexivity.
  - destruct k; cbn [seq nth_error].
    + change (0 <? S len)%nat with true. cbn iota. f_equal. lia.
    + rewrite IH. change (S k <? S len)%nat with (k <? len)%nat.
      destruct (k <? len)%nat; [f_equal; lia|reflexivity].
Qed.

(** X12.  [_calculate_progression] never fails on lists of unlike lengths:
    it has one entry per position that has both a score and a label, the
    entry of position [k] carrying message index [k+1], that score, that
    label and the mean of the first [k+1] scores; with a label for every
    score, the last cumulative average is the mean of all scores. *)
Theorem progression_entries (scores : list float) (labels : list string) :
  let progression := _calculate_progression scores labels in
  List.length progression
  = Nat.min (List.length scores) (List.length labels)
  /\ (forall k,
         nth_error progression k
         = match nth_error scores k, nth_error labels k with
           | Some s, Some l =>
               Some {| message_index := k + 1;
                       Analyzer.score := s;
                       Analyzer.label := l;
                       cumulative_avg :=
                         (Float64.sum (firstn (k + 1) scores)
                          / Float64.of_nat (k + 1))%float |}
           | _, _ => None
           end)
  /\ (forall e,
         (List.length scores <= List.length labels)%nat ->
         nth_error progression (List.length scores - 1) = Some e ->
         cumulative_avg e = Spec.mean scores).
Proof.
  cbv zeta.
  assert (Hnth : forall k,
    nth_error (_calculate_progression scores labels) k
    = match nth_error scores k, nth_error labels k with
      | Some s, Some l =>
          Some {| message_index := k + 1;
                  Analyzer.score := s;
                  Analyzer.label := l;
                  cumulative_avg :=
                    (Float64.sum (firstn (k + 1) scores)
                     / Float64.of_nat (k + 1))%float |}
      | _, _ => None
      end).
  { intro k. unfold _calculate_progression, enumerate.
    rewrite nth_error_map, nth_error_combine, nth_error_seq,
      nth_error_combine.
    destruct (nth_error scores k) as [s|] eqn:Es;
      destruct (nth_error labels k) as [l|] eqn:El;
      destruct (k <? List.length (combine scores labels))%nat eqn:Ek;
      try reflexivity.
    exfalso. apply Nat.ltb_ge in Ek. rewrite length_combine in Ek.
    assert (k < List.length scores)%nat
      by (apply nth_error_Some; congruence).
    assert (k < List.length labels)%nat
      by (apply nth_error_Some; congruence).
    lia. }
  split; [|split; [exact Hnth|]].
  - unfold _calculate_progression, enumerate.
    rewrite length_map, length_combine, length_seq, length_combine. lia.
  - intros e Hlabels He. rewrite Hnth in He.
    destruct (nth_error scores (List.length scores - 1)) as [s|] eqn:Es;
      [|discriminate He].
    destruct (nth_error labels (List.length scores - 1)) as [l|];
      [|discriminate He].
    inversion He. cbn [cumulative_avg].
    assert (Hpos : (List.length scores - 1 < List.length scores)%nat)
      by (apply nth_error_Some; congruence).
    replace (List.length scores - 1 + 1)%nat with (List.length scores)
      by lia.
    rewrite firstn_all. reflexivity.
Qed.

Lemma progression_entries_witness :
  exists e,
    nth_error
      (_calculate_progression [0.2; 0.4]%float ["Positive"; "Positive"]) 1
    = Some e
    /\ cumulative_avg e = Spec.mean [0.2; 0.4]%float
    /\ cumulative_avg e = 0.30000000000000004%float.
Proof.
  destruct (@progression_entries [0.2; 0.4]%float ["Positive"; "Positive"])
    as (_ & Hnth & Hlast).
  specialize (Hnth 1%nat). cbn [nth_error] in Hnth.
  eexists. split; [exact Hnth|]. split.
  - apply Hlast; [simpl; lia|exact Hnth].
  - vm_compute. reflexivity.
Defined.

(** ** Key moments without labels *)

Lemma index_raises {T} (xs : list T) (i : nat) :
  (List.length xs <= i)%nat -> index xs i = Raised "IndexError".
Proof.
  intro Hi. unfold index.
  replace (nth_error xs i) with (@None T)
    by (symmetry; apply nth_error_None; exact Hi).
  reflexivity.
Qed.

Lemma index_outcome {T} (xs : list T) (i : nat) :
  (exists x, index xs i = Returned x) \/ index xs i = Raised "IndexError".
Proof.
  unfold index. destruct (nth_error xs i); [left; eexists|right]; reflexivity.
Qed.

(** One turn of the loop raises nothing but [IndexError]. *)
Lemma key_moments_at_raises (scores : list float) (labels : list string)
  (i : nat) (e : string) :
  key_moments_at scores labels i = Raised e -> e = "IndexError".
Proof.
  unfold key_moments_at.
  repeat match goal with
    | |- context [index ?xs ?j] =>
        let x := fresh "x" in
        let E := fresh "E" in
        destruct (index_outcome xs j) as [[x E]|E]; rewrite E; clear E;
        cbn [bind]
    | |- context [if ?c then _ else _] => destruct c; cbn [bind]
    end;
    intro E; inversion E; reflexivity.
Qed.

Lemma key_moments_at_needs_labels (scores : list float)
  (labels : list string) (i : nat) :
  (1 <= i < List.length scores)%nat ->
  (List.length labels <= i)%nat ->
  PrimFloat.ltb 0.3
    (PrimFloat.abs (nth i scores 0 - nth (i - 1) scores 0))%float = true
  \/ PrimFloat.ltb 0.7 (PrimFloat.abs (nth i scores 0%float)) = true ->
  key_moments_at scores labels i = Raised "IndexError".
Proof.
  intros Hi Hlabels Hfires. unfold key_moments_at.
  rewrite (index_nth scores 0%float) by lia.
  rewrite (@index_nth _ scores (i - 1) 0%float) by lia.
  rewrite (@index_raises _ labels i) by exact Hlabels.
  cbn [bind]. unfold Float64.gtb.
  destruct (PrimFloat.ltb 0.3
              (PrimFloat.abs (nth i scores 0 - nth (i - 1) scores 0))%float).
  - destruct (index_outcome labels (i - 1)) as [[x E]|E]; rewrite E;
      reflexivity.
  - cbn [bind].
    destruct (PrimFloat.ltb 0.7 (PrimFloat.abs (nth i scores 0%float)));
      [reflexivity|].
    destruct Hfires as [Hfires|Hfires]; discriminate Hfires.
Qed.

Lemma key_moments_loop_raises (scores : list float) (labels : list string)
  (indices : list nat) (i : nat) :
  In i indices ->
  key_moments_at scores labels i = Raised "IndexError" ->
  forall found,
    key_moments_loop scores labels indices found = Raised "IndexError".
Proof.
  intros Hin Hraises.
  induction indices as [|j rest IH]; [destruct Hin|].
  intro found. cbn [key_moments_loop].
  destruct (key_moments_at scores labels j) as [ms|e] eqn:Ej; cbn [bind].
  - destruct Hin as [->|Hin]; [congruence|]. apply IH. exact Hin.
  - f_equal. exact (key_moments_at_raises _ _ _ Ej).
Qed.

(** X13.  Key-moment detection needs a label only where a record is built.
    When some pair fires (a shift above 0.3 or a score beyond 0.7) at an
    index that has no label, [_identify_key_moments] raises [IndexError],
    and so does [analyze_trend]; when no pair fires, it returns the empty
    list whatever the labels, and [analyze_trend] returns a result. *)
Theorem key_moments_need_labels (scores : list float)
  (labels : list string) :
  (forall i,
      (1 <= i < List.length scores)%nat ->
      (List.length labels <= i)%nat ->
      PrimFloat.ltb 0.3
        (PrimFloat.abs (nth i scores 0 - nth (i - 1) scores 0))%float = true
      \/ PrimFloat.ltb 0.7 (PrimFloat.abs (nth i scores 0%float)) = true ->
      _identify_key_moments scores labels = Raised "IndexError"
      /\ analyze_trend scores labels = Raised "IndexError")
  /\ ((forall i,
          (1 <= i < List.length scores)%nat ->
          PrimFloat.ltb 0.3
            (PrimFloat.abs (nth i scores 0 - nth (i - 1) scores 0))%float
          = false
          /\ PrimFloat.ltb 0.7 (PrimFloat.abs (nth i scores 0%float))
             = false) ->
      _identify_key_moments scores labels = Returned []
      /\ exists r,
          analyze_trend scores labels = Returned r
          /\ (2 <= List.length scores -> key_moments r = Some [])%nat).
Proof.
  split.
  - intros i Hi Hlabels Hfires.
    assert (Hrun : _identify_key_moments scores labels = Raised "IndexError").
    { unfold _identify_key_moments.
      replace (List.length scores <? 2)%nat with false
        by (symmetry; apply Nat.ltb_ge; lia).
      apply (@key_moments_loop_raises scores labels _ i).
      - apply in_seq. lia.
      - apply key_moments_at_needs_labels; assumption. }
    split; [exact Hrun|].
    unfold analyze_trend.
    replace (List.length scores <? 2)%nat with false
      by (symmetry; apply Nat.ltb_ge; lia).
    rewrite Hrun. reflexivity.
  - intro Hquiet.
    assert (Hloop : forall indices found,
               (forall i, In i indices ->
                          (1 <= i < List.length scores)%nat) ->
               key_moments_loop scores labels indices found
               = Returned found).
    { induction indices as [|i rest IH]; intros found Hrange;
        [reflexivity|].
      cbn [key_moments_loop].
      assert (Hi : (1 <= i < List.length scores)%nat)
        by (apply Hrange; left; reflexivity).
      destruct (Hquiet i Hi) as [Hnoshift Hnoext].
      unfold key_moments_at.
      rewrite (index_nth scores 0%float) by lia.
      rewrite (@index_nth _ scores (i - 1) 0%float) by lia.
      cbn [bind]. unfold Float64.gtb. rewrite Hnoshift, Hnoext.
      cbn [bind app]. rewrite app_nil_r.
      apply IH. intros j Hj. apply Hrange. right. exact Hj. }
    assert (Hrun : _identify_key_moments scores labels = Returned []).
    { unfold _identify_key_moments.
      destruct (List.length scores <? 2)%nat; [reflexivity|].
      apply Hloop. intros i Hi. apply in_seq in Hi. lia. }
    split; [exact Hrun|].
    unfold analyze_trend.
    destruct (List.length scores <? 2)%nat eqn:Eshort.
    + eexists. split; [reflexivity|]. apply Nat.ltb_lt in Eshort. lia.
    + rewrite Hrun. cbn [bind]. eexists. split; [reflexivity|].
      intros _. reflexivity.
Qed.

Lemma key_moments_need_labels_witness :
  analyze_trend [0.1; 0.9]%float [] = Raised "IndexError"
  /\ exists r, analyze_trend [0.1; 0.2]%float [] = Returned r.
Proof.
  split.
  - apply (proj1 (@key_moments_need_labels [0.1; 0.9]%float []) 1%nat).
    + simpl. lia.
    + simpl. lia.
    + left. vm_compute. reflexivity.
  - destruct (proj2 (@key_moments_need_labels [0.1; 0.2]%float []))
      as (_ & r & Hr & _).
    + intros i Hi. simpl in Hi. assert (i = 1%nat) by lia. subst i.
      split; vm_compute; reflexivity.
    + exists r. exact Hr.
Defined.

(** ** How many key moments *)

Lemma flat_map_length_le {T U} (f : T -> list U) (bound : nat)
  (xs : list T) :
  (forall x, In x xs -> (List.length (f x) <= bound)%nat) ->
  (List.length (flat_map f xs) <= bound * List.length xs)%nat.
Proof.
  induction xs as [|x xs IH]; intro Hall; [simpl; lia|].
  cbn [flat_map List.length]. rewrite length_app.
  specialize (Hall x (or_introl eq_refl)) as Hx.
  assert (List.length (flat_map f xs) <= bound * List.length xs)%nat
    by (apply IH; intros y Hy; apply Hall; right; exact Hy).
  lia.
Qed.

(** X14.  With a label for every score, key-moment detection returns at
    most two records per adjacent pair, [2 * (n - 1)] in all for [n] scores,
    and every record carries a message index between 2 and [n]: the first
    message is never a key moment, however extreme its score. *)
Theorem key_moments_bounds (scores : list float) (labels : list string) :
  (List.length scores <= List.length labels)%nat ->
  exists moments,
    _identify_key_moments scores labels = Returned moments
    /\ (List.length moments <= 2 * (List.length scores - 1))%nat
    /\ forall m, In m moments ->
                 let message_index :=
                   match m with
                   | significant_shift i _ _ _ _ _ _ => i
                   | extreme_sentiment i _ _ => i
                   end in
                 (2 <= message_index <= List.length scores)%nat.
Proof.
  intro Hlabels. exists (Spec.key_moments scores labels).
  split; [apply identify_key_moments_pairs; exact Hlabels|].
  unfold Spec.key_moments. split.
  - pose proof (@flat_map_length_le _ _
                  (Spec.moments_of_pair scores labels) 2
                  (seq 1 (List.length scores - 1))) as Hbound.
    rewrite length_seq in Hbound. apply Hbound.
    intros i _. unfold Spec.moments_of_pair.
    destruct (PrimFloat.ltb 0.3 _); destruct (PrimFloat.ltb 0.7 _);
      simpl; lia.
  - intros m Hm. apply in_flat_map in Hm. destruct Hm as (i & Hi & Hm).
    apply in_seq in Hi.
    destruct m as [idx dir mag f t fl tl|idx sentiment s]; cbv zeta.
    + apply in_pair_shift in Hm. destruct Hm as [-> _]. lia.
    + apply in_pair_extreme in Hm. destruct Hm as [-> _]. lia.
Qed.

Lemma key_moments_bounds_witness :
  exists moments,
    _identify_key_moments [0.9; 0.95; -0.9]%float
      ["Positive"; "Positive"; "Negative"]
    = Returned moments
    /\ (List.length moments <= 4)%nat.
Proof.
  destruct (@key_moments_bounds [0.9; 0.95; -0.9]%float
              ["Positive"; "Positive"; "Negative"])
    as (moments & Hrun & Hlen & _).
  - simpl. lia.
  - exists moments. split; [exact Hrun|exact Hlen].
Defined.
